(** * htmltopdf: a shallow embedding of [src/htmltopdf.py]

    The program reads one HTML file, rewrites the [src] of its [img]
    elements, collects the local stylesheets its [link] elements name,
    composes an [@page] block from the command line and hands markup and
    stylesheets to WeasyPrint.

    Modelling conventions.
    - Python [str] values are [string]s of 8-bit characters (the UTF-8
      encoding of the text).  Every string operation the program performs
      (concatenation, [startswith] on ASCII prefixes, comparison with the
      ASCII word [stylesheet] after [lower()]) commutes with that encoding;
      no non-ASCII character lower-cases to a letter of [stylesheet].
    - [os.path] is the POSIX flavour ([posixpath]).
    - The parsed document is the BeautifulSoup tree: an attribute value is
      a [str] or, for multi-valued attributes such as [rel], a list of
      tokens.
    - Exceptions, console output, the file system and the calls made to
      the renderer are threaded through a state-and-exception monad whose
      state survives a raised exception, as printed lines do in Python.
    - [CSS(string=...)] accepts every text, and every exception of the
      model is an [Exception], which the handler of [main] catches. *)

From Stdlib Require Import String Ascii List Bool Arith Lia.
Import ListNotations.

#[local] Set Warnings "-register-all,-notation-for-abbreviation".

Local Open Scope list_scope.
Local Open Scope string_scope.

(** ** Python string primitives *)

Module PyStr.

  (** [s.startswith(p)] *)
Fixpoint startswith (s p : string) {struct p} : bool :=
  match p, s with
  | EmptyString, _ => true
  | String a p', String b s' => Ascii.eqb a b && startswith s' p'
  | String _ _, EmptyString => false
  end.

  (** [s.startswith((p1, ..., pn))] *)
Definition startswith_any (s : string) (ps : list string) : bool :=
  existsb (startswith s) ps.

  (** [s.endswith(p)]: some suffix of [s] is [p]. *)
Fixpoint endswith (s p : string) : bool :=
  String.eqb s p ||
  match s with
  | EmptyString => false
  | String _ s' => endswith s' p
  end.

Definition ascii_lower (c : ascii) : ascii :=
  let n := nat_of_ascii c in
  if ((65 <=? n) && (n <=? 90))%nat then ascii_of_nat (n + 32) else c.

  (** [s.lower()] *)
Fixpoint lower (s : string) : string :=
  match s with
  | EmptyString => EmptyString
  | String c s' => String (ascii_lower c) (lower s')
  end.

  (** [p in s]: the text [p] occurs in [s]. *)
Fixpoint contains (s p : string) : bool :=
  startswith s p ||
  match s with
  | EmptyString => false
  | String _ s' => contains s' p
  end.

  (** [bool(s)] *)
Definition nonempty (s : string) : bool :=
  match s with EmptyString => false | String _ _ => true end.

  (** A character occurs in a string. *)
Fixpoint has_char (c : ascii) (s : string) : bool :=
  match s with
  | EmptyString => false
  | String d s' => Ascii.eqb c d || has_char c s'
  end.

Definition nl : string := String (ascii_of_nat 10) EmptyString.

End PyStr.

(** ** [os.path] (POSIX) *)

Module OsPath.
Import PyStr.

  (** [posixpath.join(a, b)]: an absolute [b] replaces [a]; otherwise [b]
      is appended, with a separator unless [a] is empty or already ends
      with one. *)
Definition join (a b : string) : string :=
  if startswith b "/" then b
  else if negb (nonempty a) || endswith a "/" then a ++ b
  else a ++ "/" ++ b.

End OsPath.

(** ** Exceptions *)

Inductive exn : Type :=
| IndexError (msg : string)
| KeyError (msg : string)
| AttributeError (msg : string)
| OtherError (cls msg : string).
    (* raised by the environment: [open], [read], the renderer *)

(** [str(e)], as interpolated by an f-string. *)
Definition exn_str (e : exn) : string :=
  match e with
  | IndexError m => m
  | KeyError m => "'" ++ m ++ "'"
  | AttributeError m => m
  | OtherError _ m => m
  end.

(** ** The BeautifulSoup document *)

Module Bs4.

Inductive attr_value : Type :=
| AStr (s : string)
| AList (tokens : list string).

Definition attrs_t : Type := list (string * attr_value).

Inductive node : Type :=
| NavigableString (s : string)
| Tag (name : string) (attrs : attrs_t) (contents : list node).

  (** The parsed document: the top-level contents of the soup object. *)
Definition soup_t : Type := list node.

  (** [d.get(key)] on the attribute dictionary *)
Fixpoint dict_get (d : attrs_t) (key : string) : option attr_value :=
  match d with
  | [] => None
  | (k, v) :: d' => if String.eqb k key then Some v else dict_get d' key
  end.

  (** [d[key] = v]: an existing key keeps its position, a new one is
      added at the end. *)
Fixpoint dict_set (d : attrs_t) (key : string) (v : attr_value) : attrs_t :=
  match d with
  | [] => [(key, v)]
  | (k, v0) :: d' =>
      if String.eqb k key then (k, v) :: d' else (k, v0) :: dict_set d' key v
  end.

Definition tag_attrs (n : node) : attrs_t :=
  match n with
  | NavigableString _ => []
  | Tag _ attrs _ => attrs
  end.

  (** [tag.get(key)] and [tag.get(key, default)] *)
Definition get (t : node) (key : string) : option attr_value :=
  dict_get (tag_attrs t) key.

Definition get_default (t : node) (key : string) (default : attr_value)
  : attr_value :=
  match get t key with
  | Some v => v
  | None => default
  end.

  (** Truth value of what [tag.get(key)] returned: [None], the empty
      string and the empty list are false. *)
Definition truthy (v : option attr_value) : bool :=
  match v with
  | None => false
  | Some (AStr s) => PyStr.nonempty s
  | Some (AList []) => false
  | Some (AList (_ :: _)) => true
  end.

  (** [v[0]]: the first token of a list, the first character of a string. *)
Definition getitem0 (v : attr_value) : exn + string :=
  match v with
  | AList (t :: _) => inr t
  | AList [] => inl (IndexError "list index out of range")
  | AStr (String c _) => inr (String c EmptyString)
  | AStr EmptyString => inl (IndexError "string index out of range")
  end.

  (** [tag.find_all(name)]: the descendants called [name], in document
      order (a tag comes before what it contains). *)
Fixpoint find_all_node (name : string) (n : node) : list node :=
  match n with
  | NavigableString _ => []
  | Tag nm _ contents =>
      ((if String.eqb nm name then [n] else [])
         ++ flat_map (find_all_node name) contents)%list
  end.

Definition find_all (soup : soup_t) (name : string) : list node :=
  flat_map (find_all_node name) soup.

End Bs4.

(** ** The world the program runs in *)

(** A loaded stylesheet: [CSS(string=...)] keeps the text it was given. *)
Inductive CSS : Type := CSS_string (text : string).

Definition css_text (c : CSS) : string :=
  match c with CSS_string text => text end.

(** What the program can observe of the file system: [os.path.exists]
    and the outcome of opening a path in text mode and reading it whole
    (the text, or the exception [open] or [read] raised). *)
Record filesystem : Type := {
  path_exists : string -> bool;
  read_text : string -> exn + string
}.

(** One call [HTML(string=markup).write_pdf(target, stylesheets=...)]. *)
Record render_call : Type := {
  call_markup : string;
  call_target : string;
  call_stylesheets : list CSS
}.

Record world : Type := {
  fs : filesystem;
  stdout : list string;          (* printed lines, oldest first *)
  rendered : list render_call    (* calls made to the renderer *)
}.

(** ** A state-and-exception monad *)

Definition M (A : Type) : Type := world -> (exn + A) * world.

Definition ret {A} (a : A) : M A := fun w => (inr a, w).

Definition raise {A} (e : exn) : M A := fun w => (inl e, w).

Definition bind {A B} (c : M A) (k : A -> M B) : M B :=
  fun w =>
    match c w with
    | (inr a, w') => k a w'
    | (inl e, w') => (inl e, w')
    end.

(** [try: c  except Exception as e: h e] *)
Definition try_except {A} (c : M A) (h : exn -> M A) : M A :=
  fun w =>
    match c w with
    | (inr a, w') => (inr a, w')
    | (inl e, w') => h e w'
    end.

(** A pure computation that may raise. *)
Definition lift {A} (r : exn + A) : M A := fun w => (r, w).

Notation "x <- c ;; k" := (bind c (fun x => k))
  (at level 61, c at next level, right associativity).
Notation "c ;;; k" := (bind c (fun _ => k))
  (at level 61, right associativity).

(** [for x in l: acc = body acc x] *)
Fixpoint for_each {A S} (body : S -> A -> M S) (l : list A) (acc : S) : M S :=
  match l with
  | [] => ret acc
  | x :: l' => acc' <- body acc x ;; for_each body l' acc'
  end.

(** [print(line)] *)
Definition print (line : string) : M unit :=
  fun w => (inr tt, {| fs := fs w;
                       stdout := (stdout w ++ [line])%list;
                       rendered := rendered w |}).

(** [os.path.exists(path)] *)
Definition os_path_exists (path : string) : M bool :=
  fun w => (inr (path_exists (fs w) path), w).

(** [with open(path, 'r') as f: f.read()] *)
Definition open_read (path : string) : M string :=
  fun w => (read_text (fs w) path, w).

(** ** The program *)

Section Converter.
Import PyStr Bs4.

  (** The libraries the program calls and does not implement. *)
Variable os_path_abspath : string -> string.
Variable os_path_dirname : string -> string.
  (** [BeautifulSoup(text, 'html.parser')] and [str(soup)] *)
Variable BeautifulSoup : string -> soup_t.
Variable soup_str : soup_t -> string.
  (** WeasyPrint: what rendering one call does to the file system, and
      whether it raises. *)
Variable weasyprint : render_call -> filesystem -> (exn + unit) * filesystem.

(** Lines 12-21: the body of the loop over the [link] elements. *)
Definition find_css_files_body (base_dir : string) (css_files : list string)
    (link : node) : M (list string) :=
  rel0 <- lift (getitem0 (get_default link "rel" (AList [""]))) ;;
  if String.eqb (lower rel0) "stylesheet" && truthy (get link "href") then
    match get link "href" with
    | None => raise (KeyError "href")
    | Some (AList _) =>
        raise (AttributeError "'list' object has no attribute 'startswith'")
    | Some (AStr css_path) =>
        if negb (startswith_any css_path ["http://"; "https://"]) then
          let abs_path := OsPath.join base_dir css_path in
          found <- os_path_exists abs_path ;;
          if (found : bool) then ret (css_files ++ [abs_path])%list
          else (print ("Warning: CSS file not found: " ++ abs_path) ;;;
                ret css_files)
        else ret css_files
    end
  else ret css_files.

Definition find_css_files (soup : soup_t) (base_dir : string)
  : M (list string) :=
  for_each (find_css_files_body base_dir) (find_all soup "link") [].

(** Lines 28-32: the body of the loop over the stylesheet paths. *)
Definition load_css_files_body (stylesheets : list CSS) (css_file : string)
  : M (list CSS) :=
  try_except
    (text <- open_read css_file ;;
     ret (stylesheets ++ [CSS_string text])%list)
    (fun e =>
       print ("Warning: Could not load CSS file " ++ css_file ++ ": "
                ++ exn_str e) ;;;
       ret stylesheets).

Definition default_css : CSS :=
  CSS_string
    (nl ++ "        @page {"
  ++ nl ++ "            size: A4;"
  ++ nl ++ "            margin: 1cm;"
  ++ nl ++ "            @top-center {"
  ++ nl ++ "                content: '';"
  ++ nl ++ "            }"
  ++ nl ++ "            @bottom-center {"
  ++ nl ++ "                content: counter(page);"
  ++ nl ++ "            }"
  ++ nl ++ "        }"
  ++ nl ++ "    ").

Definition load_css_files (css_files : list string) : M (list CSS) :=
  stylesheets <- for_each load_css_files_body css_files [] ;;
  ret (stylesheets ++ [default_css])%list.

(** Lines 64-67: the body of the loop over the [img] elements, as the
    new attribute dictionary of the element. *)
Definition img_src_body (base_dir : string) (attrs : attrs_t)
  : exn + attrs_t :=
  match dict_get attrs "src" with
  | None => inr attrs
  | Some (AList []) => inr attrs
  | Some (AList (_ :: _)) =>
      inl (AttributeError "'list' object has no attribute 'startswith'")
  | Some (AStr src) =>
      if nonempty src
         && negb (startswith_any src ["http://"; "https://"; "/"])
      then
        let abs_path := OsPath.join base_dir src in
        inr (dict_set attrs "src" (AStr ("file://" ++ abs_path)))
      else inr attrs
  end.

Definition map_exn {A B} (f : A -> exn + B) : list A -> exn + list B :=
  fix go (l : list A) : exn + list B :=
    match l with
    | [] => inr []
    | x :: l' =>
        match f x with
        | inl e => inl e
        | inr y =>
            match go l' with
            | inl e => inl e
            | inr ys => inr (y :: ys)
            end
        end
    end.

(** Lines 63-67: the loop mutates every [img] element of the tree in
    place, in document order; the tree after the loop is the tree with
    the body applied at each [img]. *)
Fixpoint rewrite_img_src (base_dir : string) (n : node) : exn + node :=
  match n with
  | NavigableString _ => inr n
  | Tag name attrs contents =>
      match (if String.eqb name "img" then img_src_body base_dir attrs
             else inr attrs) with
      | inl e => inl e
      | inr attrs' =>
          match map_exn (rewrite_img_src base_dir) contents with
          | inl e => inl e
          | inr contents' => inr (Tag name attrs' contents')
          end
      end
  end.

Definition rewrite_img_srcs (base_dir : string) (soup : soup_t)
  : exn + soup_t :=
  map_exn (rewrite_img_src base_dir) soup.

(** Lines 80-81: the conditional footer of the page rule. *)
Definition footer_rule (add_page_numbers : bool) : string :=
  if add_page_numbers then "@bottom-center { content: counter(page); }"
  else "".

(** Lines 76-83: the f-string. *)
Definition page_css (page_size margin : string) (add_page_numbers : bool)
  : string :=
     nl ++ "        @page {"
  ++ nl ++ "            size: " ++ page_size ++ ";"
  ++ nl ++ "            margin: " ++ margin ++ ";"
  ++ nl ++ "            " ++ footer_rule add_page_numbers
  ++ nl ++ "        }"
  ++ nl ++ "    ".

(** Lines 87-90: the call is recorded, then the renderer does what it
    does to the file system. *)
Definition HTML_write_pdf (markup target : string) (stylesheets : list CSS)
  : M unit :=
  fun w =>
    let call := {| call_markup := markup;
                   call_target := target;
                   call_stylesheets := stylesheets |} in
    let (r, fs') := weasyprint call (fs w) in
    (r, {| fs := fs';
           stdout := stdout w;
           rendered := (rendered w ++ [call])%list |}).

Definition convert_html_to_pdf (html_path output_pdf page_size margin : string)
    (include_css add_page_numbers : bool) : M unit :=
  let base_dir := os_path_abspath (os_path_dirname html_path) in
  html_content <- open_read html_path ;;
  let soup := BeautifulSoup html_content in
  soup <- lift (rewrite_img_srcs base_dir soup) ;;
  stylesheets <-
    (if include_css then
       css_files <- find_css_files soup base_dir ;;
       load_css_files css_files
     else ret []) ;;
  let stylesheets :=
    (stylesheets ++ [CSS_string (page_css page_size margin add_page_numbers)])%list in
  HTML_write_pdf (soup_str soup) output_pdf stylesheets.

(** The parsed command line. *)
Record args_t : Type := {
  html_file : string;
  output : string;
  size : string;
  margin_arg : string;
  no_css : bool;
  no_page_numbers : bool
}.

(** Lines 108-119 of [main]: what runs once the arguments are parsed.
    The function has no [return] and no [sys.exit]: the value is [None]
    and the process ends with status 0 whenever [main] returns. *)
Definition main (args : args_t) : M unit :=
  try_except
    (convert_html_to_pdf (html_file args) (output args) (size args)
       (margin_arg args) (negb (no_css args)) (negb (no_page_numbers args)) ;;;
     print ("Successfully converted " ++ html_file args ++ " to "
              ++ output args))
    (fun e => print ("Error: " ++ exn_str e)).

End Converter.

(** ** Vocabulary of the specification *)

Section Vocabulary.
Import PyStr Bs4.

(** The world after some more lines were printed. *)
Definition add_lines (w : world) (lines : list string) : world :=
  {| fs := fs w;
     stdout := (stdout w ++ lines)%list;
     rendered := rendered w |}.

(** The stylesheet-link elements in the words of the specification: the
    first token of the relation attribute is [stylesheet], compared
    without regard to case. *)
Definition first_token (link : node) : option string :=
  match get link "rel" with
  | Some (AList (t :: _)) => Some t
  | Some (AStr (String c _)) => Some (String c EmptyString)
  | _ => None
  end.

Definition is_stylesheet_link (link : node) : bool :=
  match first_token link with
  | Some t => String.eqb (lower t) "stylesheet"
  | None => false
  end.

(** The reference of a link, when it has a non-empty one. *)
Definition href_of (link : node) : option string :=
  match get link "href" with
  | Some (AStr h) => if nonempty h then Some h else None
  | _ => None
  end.

Definition is_network (ref : string) : bool :=
  startswith_any ref ["http://"; "https://"].

(** The local references of the selected links, in document order. *)
Definition local_ref (link : node) : list string :=
  if is_stylesheet_link link then
    match href_of link with
    | Some h => if is_network h then [] else [h]
    | None => []
    end
  else [].

Definition resolved_refs (base_dir : string) (links : list node)
  : list string :=
  map (OsPath.join base_dir) (flat_map local_ref links).

Definition not_found_warning (path : string) : string :=
  "Warning: CSS file not found: " ++ path.

Definition missing_warnings (f : filesystem) (paths : list string)
  : list string :=
  map not_found_warning (filter (fun p => negb (path_exists f p)) paths).

Definition load_warning (path : string) (e : exn) : string :=
  "Warning: Could not load CSS file " ++ path ++ ": " ++ exn_str e.

Definition loaded_sheets (f : filesystem) (paths : list string) : list CSS :=
  flat_map (fun p => match read_text f p with
                     | inr text => [CSS_string text]
                     | inl _ => []
                     end) paths.

Definition load_warnings (f : filesystem) (paths : list string)
  : list string :=
  flat_map (fun p => match read_text f p with
                     | inr _ => []
                     | inl e => [load_warning p e]
                     end) paths.

(** A [link] element on which the scan of lines 12-15 raises nothing:
    its relation attribute, when present, has a first token, and its
    reference is a string, as the HTML parser builds it. *)
Definition link_wf (link : node) : bool :=
  match get link "rel" with
  | Some (AList []) | Some (AStr EmptyString) => false
  | _ => true
  end
  &&
  match get link "href" with
  | Some (AList _) => false
  | _ => true
  end.

(** An [img] element whose [src], when present, is a string, as the HTML
    parser builds it. *)
Definition img_wf (img : node) : bool :=
  match get img "src" with
  | Some (AList _) => false
  | _ => true
  end.

Definition footer_selector : string := "@bottom-center".

(** The prefixes that exempt a [src] from the rewrite of line 65. *)
Definition exempt_prefixes : list string := ["http://"; "https://"; "/"].

(** An element before and after the image loop: the loop body turned
    the old attributes into the new ones. *)
Definition img_step (base_dir : string) (old new : node) : Prop :=
  img_src_body base_dir (tag_attrs old) = inr (tag_attrs new).

(** Lines 72-73: the collector as the conversion runs it, the scan of the
    links, then the loading of the files found. *)
Definition collect (soup : soup_t) (base_dir : string) : M (list CSS) :=
  css_files <- find_css_files soup base_dir ;;
  load_css_files css_files.

(** [d] without the entries of [key]. *)
Definition dict_del (d : attrs_t) (key : string) : attrs_t :=
  filter (fun kv => negb (String.eqb (fst kv) key)) d.

(** A tree with the [src] entries of its [img] elements taken out: what
    is left is the text nodes, the nesting, the tag names and every
    other attribute, in order. *)
Fixpoint without_img_src (n : node) : node :=
  match n with
  | NavigableString _ => n
  | Tag name attrs contents =>
      Tag name
        (if String.eqb name "img" then dict_del attrs "src" else attrs)
        (map without_img_src contents)
  end.

End Vocabulary.

(** ** A concrete run: [/x/doc.html] with one image and one stylesheet *)

Module Demo.
Import PyStr Bs4.

Definition abspath (p : string) : string := p.
Definition dirname (_ : string) : string := "/x".

Definition soup : soup_t :=
  [Tag "html" []
     [Tag "head" []
        [Tag "link" [("rel", AList ["stylesheet"]); ("href", AStr "style.css")] []];
      Tag "body" []
        [NavigableString "hello";
         Tag "img" [("src", AStr "pic.png")] []]]].

Definition parse (_ : string) : soup_t := soup.

Definition attr_text (v : attr_value) : string :=
  match v with
  | AStr s => s
  | AList l => String.concat " " l
  end.

Fixpoint node_str (n : node) : string :=
  match n with
  | NavigableString s => s
  | Tag name attrs contents =>
      "<" ++ name
      ++ String.concat ""
           (map (fun kv => " " ++ fst kv ++ "='" ++ attr_text (snd kv) ++ "'")
              attrs)
      ++ ">" ++ String.concat "" (map node_str contents)
      ++ "</" ++ name ++ ">"
  end.

Definition str (s : soup_t) : string := String.concat "" (map node_str s).

Definition no_such_file (p : string) : exn :=
  OtherError "FileNotFoundError"
    ("[Errno 2] No such file or directory: '" ++ p ++ "'").

Definition disk : filesystem :=
  {| path_exists := fun p =>
       String.eqb p "/x/doc.html" || String.eqb p "/x/style.css"
       || String.eqb p "/x/pic.png";
     read_text := fun p =>
       if String.eqb p "/x/doc.html" then inr "<html>...</html>"
       else if String.eqb p "/x/style.css" then inr "body { color: black; }"
       else inl (no_such_file p) |}.

(** The renderer succeeds and creates its target. *)
Definition renderer (c : render_call) (f : filesystem)
  : (exn + unit) * filesystem :=
  (inr tt,
   {| path_exists := fun p => String.eqb p (call_target c) || path_exists f p;
      read_text := read_text f |}).

Definition w0 : world := {| fs := disk; stdout := []; rendered := [] |}.

Definition convert :=
  convert_html_to_pdf abspath dirname parse str renderer.

(** The same directory without [style.css]. *)
Definition disk_no_css : filesystem :=
  {| path_exists := fun p =>
       String.eqb p "/x/doc.html" || String.eqb p "/x/pic.png";
     read_text := fun p =>
       if String.eqb p "/x/doc.html" then inr "<html>...</html>"
       else inl (no_such_file p) |}.

Definition w_no_css : world :=
  {| fs := disk_no_css; stdout := []; rendered := [] |}.

(** A document whose image has an empty [src]. *)
Definition soup_empty_src : soup_t :=
  [Tag "img" [("src", AStr ""); ("alt", AStr "logo")] []].

(** A document with a [link] whose relation attribute has no token
    ([<link rel="" href="print.css">]) before the stylesheet link. *)
Definition soup_empty_rel : soup_t :=
  [Tag "link" [("rel", AList []); ("href", AStr "print.css")] [];
   Tag "link" [("rel", AList ["stylesheet"]); ("href", AStr "style.css")] []].

Definition margin_with_footer : string :=
  "1cm; @bottom-center { content: none; }".

(** A stylesheet link whose reference is the empty string, in a
    directory that exists. *)
Definition soup_empty_href : soup_t :=
  [Tag "link" [("rel", AList ["stylesheet"]); ("href", AStr "")] []].

Definition is_a_directory (p : string) : exn :=
  OtherError "IsADirectoryError" ("[Errno 21] Is a directory: '" ++ p ++ "'").

Definition disk_with_dir : filesystem :=
  {| path_exists := fun p =>
       String.eqb p "/x" || String.eqb p "/x/" || path_exists disk p;
     read_text := fun p =>
       if String.eqb p "/x" || String.eqb p "/x/" then inl (is_a_directory p)
       else read_text disk p |}.

Definition w_dir : world :=
  {| fs := disk_with_dir; stdout := []; rendered := [] |}.

Definition margin_with_counter : string :=
  "1cm; @bottom-center { content: counter(page); }".

(** [soup] after the image loop. *)
Definition soup_rewritten : soup_t :=
  [Tag "html" []
     [Tag "head" []
        [Tag "link" [("rel", AList ["stylesheet"]); ("href", AStr "style.css")] []];
      Tag "body" []
        [NavigableString "hello";
         Tag "img" [("src", AStr "file:///x/pic.png")] []]]].

(** Images whose [src] already carries a scheme. *)
Definition soup_schemes : soup_t :=
  [Tag "img" [("src", AStr "file:///x/pic.png")] [];
   Tag "img" [("src", AStr "data:image/png;base64,AAAA")] []].

Definition args_missing : args_t :=
  {| html_file := "/x/missing.html"; output := "output.pdf";
     size := "A4"; margin_arg := "1cm";
     no_css := false; no_page_numbers := false |}.

Definition run_main :=
  main abspath dirname parse str renderer.

(** The conversion of a document parsed as [soup_empty_rel]. *)
Definition convert_empty_rel :=
  convert_html_to_pdf abspath dirname (fun _ => soup_empty_rel) str renderer.

(** A link to an alternate stylesheet, a remote one and an absolute one. *)
Definition link_alternate : node :=
  Tag "link" [("rel", AList ["alternate"; "stylesheet"]);
              ("href", AStr "alt.css")] [].

Definition link_remote : node :=
  Tag "link" [("rel", AList ["stylesheet"]);
              ("href", AStr "https://cdn.example.org/site.css")] [].

Definition link_absolute : node :=
  Tag "link" [("rel", AList ["StyleSheet"]);
              ("href", AStr "/usr/share/print.css")] [].

Definition soup_no_local_css : soup_t :=
  [Tag "head" [] [link_alternate; link_remote];
   Tag "img" [("alt", AStr "logo"); ("src", AStr "pic.png")] []].

Definition soup_no_local_css_rewritten : soup_t :=
  [Tag "head" [] [link_alternate; link_remote];
   Tag "img" [("alt", AStr "logo"); ("src", AStr "file:///x/pic.png")] []].

(** A stylesheet link to a missing file, then a link whose relation
    attribute has no token, then the stylesheet link of [soup]. *)
Definition link_missing : node :=
  Tag "link" [("rel", AList ["stylesheet"]); ("href", AStr "missing.css")] [].

Definition link_empty_rel : node :=
  Tag "link" [("rel", AList []); ("href", AStr "print.css")] [].

Definition link_style : node :=
  Tag "link" [("rel", AList ["stylesheet"]); ("href", AStr "style.css")] [].

Definition soup_warn_then_empty_rel : soup_t :=
  [link_missing; link_empty_rel; link_style].

(** A link whose relation attribute has no token, then a stylesheet
    link to a missing file. *)
Definition soup_empty_rel_then_missing : soup_t :=
  [link_empty_rel; link_missing].

Definition args_no_css : args_t :=
  {| html_file := "/x/doc.html"; output := "out.pdf";
     size := "Letter"; margin_arg := "2cm";
     no_css := true; no_page_numbers := true |}.

(** A renderer that fails on every call. *)
Definition failing_renderer (c : render_call) (f : filesystem)
  : (exn + unit) * filesystem :=
  (inl (OtherError "ValueError" "cannot render"), f).

End Demo.

(** ** Strings: prefixes and occurrences *)

Module PyStrFacts.
Import PyStr.

Lemma startswith_refl (p r : string) : startswith (p ++ r) p = true.
Proof.
  induction p as [|a p IH]; simpl; [reflexivity|].
  now rewrite Ascii.eqb_refl, IH.
Qed.

Lemma startswith_app (s p r : string) :
  startswith s p = true -> startswith (s ++ r) p = true.
Proof.
  revert s; induction p as [|a p IH]; intros [|b s]; simpl; try easy.
  intros H; apply andb_true_iff in H as [Hab Hs].
  now rewrite Hab, (IH _ Hs).
Qed.

Lemma contains_startswith (s p : string) :
  startswith s p = true -> contains s p = true.
Proof. destruct s; simpl; intros ->; reflexivity. Qed.

Lemma contains_app_l (s p r : string) :
  contains s p = true -> contains (s ++ r) p = true.
Proof.
  induction s as [|b s IH]; simpl; intros H.
  - rewrite orb_false_r in H. destruct p; [|discriminate H].
    destruct r; reflexivity.
  - apply orb_true_iff in H as [H|H].
    + change (String b (s ++ r)) with (String b s ++ r).
      now rewrite (startswith_app _ _ r H).
    + rewrite (IH H). apply orb_true_r.
Qed.

Lemma contains_app_r (s p r : string) :
  contains s p = true -> contains (r ++ s) p = true.
Proof.
  intros H; induction r as [|b r IH]; simpl; [exact H|].
  rewrite IH. apply orb_true_r.
Qed.

(** [p] occurs in [a ++ p ++ b]. *)
Lemma contains_middle (a p b : string) : contains (a ++ p ++ b) p = true.
Proof.
  apply contains_app_r, contains_startswith, startswith_refl.
Qed.

(** A prefix of [a ++ String d b] that is not a prefix of [a] reaches the
    character [d]. *)
Lemma startswith_cut (a b p : string) (d : ascii) :
  startswith (a ++ String d b) p = true ->
  startswith a p = true \/ has_char d p = true.
Proof.
  revert p; induction a as [|c a IH]; intros [|x p]; simpl; auto.
  - intros H; apply andb_true_iff in H as [Hx _].
    right. rewrite Ascii.eqb_sym, Hx. reflexivity.
  - intros H; apply andb_true_iff in H as [Hx Hp].
    destruct (IH _ Hp) as [Ha|Hd].
    + left. now rewrite Hx, Ha.
    + right. rewrite Hd. apply orb_true_r.
Qed.

(** An occurrence of [p] cannot straddle a character that [p] does not
    have. *)
Lemma contains_cut (a b p : string) (d : ascii) :
  has_char d p = false ->
  contains (a ++ String d b) p = true ->
  contains a p = true \/ contains b p = true.
Proof.
  intros Hd; induction a as [|c a IH]; simpl.
  - intros H; apply orb_true_iff in H as [H|H]; [|now right].
    destruct p as [|x p]; [left; reflexivity|].
    simpl in H, Hd. apply andb_true_iff in H as [Hx _].
    rewrite Ascii.eqb_sym, Hx in Hd. discriminate Hd.
  - intros H; apply orb_true_iff in H as [H|H].
    + change (String c (a ++ String d b)) with (String c a ++ String d b) in H.
      destruct (startswith_cut _ _ _ _ H) as [H1|H1].
      * left. simpl in H1 |- *. now rewrite H1.
      * rewrite H1 in Hd. discriminate Hd.
    + destruct (IH H) as [H1|H1]; [left|now right].
      rewrite H1. apply orb_true_r.
Qed.

Lemma contains_cut_false (a b p : string) (d : ascii) :
  has_char d p = false ->
  contains a p = false -> contains b p = false ->
  contains (a ++ String d b) p = false.
Proof.
  intros Hd Ha Hb.
  destruct (contains (a ++ String d b) p) eqn:E; [|reflexivity].
  destruct (contains_cut _ _ _ _ Hd E) as [H|H]; congruence.
Qed.

Lemma append_assoc (a b c : string) : (a ++ b) ++ c = a ++ b ++ c.
Proof. induction a as [|x a IH]; simpl; [reflexivity|now rewrite IH]. Qed.

Lemma startswith_inv (s p : string) :
  startswith s p = true -> exists r, s = p ++ r.
Proof.
  revert s; induction p as [|a p IH]; intros s; cbn [startswith].
  - intros _. now exists s.
  - destruct s as [|b s]; [discriminate|].
    intros H; apply andb_true_iff in H as [Hab Hs].
    apply Ascii.eqb_eq in Hab; subst b.
    destruct (IH _ Hs) as [r ->]. now exists r.
Qed.

Lemma startswith_any_slash (s : string) :
  startswith_any s ["http://"; "https://"; "/"] = false ->
  startswith s "/" = false.
Proof.
  unfold startswith_any. cbn [existsb]. intros H.
  apply orb_false_iff in H as [_ H]. apply orb_false_iff in H as [_ H].
  now apply orb_false_iff in H as [H _].
Qed.

(** A relative path is appended to the directory, after a separator
    when the directory does not end with one. *)
Lemma join_relative (base_dir p : string) :
  startswith p "/" = false ->
  exists sep, (sep = "" \/ sep = "/") /\ OsPath.join base_dir p = base_dir ++ sep ++ p.
Proof.
  unfold OsPath.join. intros ->.
  destruct (negb (nonempty base_dir) || endswith base_dir "/").
  - exists "". split; [now left|reflexivity].
  - exists "/". split; [now right|reflexivity].
Qed.

End PyStrFacts.

(** ** The stylesheet collector *)

Section CollectorFacts.
Import PyStr Bs4.

Lemma add_lines_nil (w : world) : add_lines w [] = w.
Proof. destruct w; unfold add_lines; simpl. now rewrite app_nil_r. Qed.

Lemma add_lines_app (w : world) (l1 l2 : list string) :
  add_lines (add_lines w l1) l2 = add_lines w (l1 ++ l2)%list.
Proof. unfold add_lines; simpl. now rewrite app_assoc. Qed.

Lemma fs_add_lines (w : world) (l : list string) : fs (add_lines w l) = fs w.
Proof. reflexivity. Qed.

Lemma load_body_spec (acc : list CSS) (p : string) (w : world) :
  load_css_files_body acc p w
  = match read_text (fs w) p with
    | inr text => (inr (acc ++ [CSS_string text])%list, w)
    | inl e => (inr acc, add_lines w [load_warning p e])
    end.
Proof.
  unfold load_css_files_body, try_except, bind, open_read.
  destruct (read_text (fs w) p); reflexivity.
Qed.

(** Reading the stylesheets never raises: an unreadable file costs a
    warning and nothing else. *)
Lemma load_loop_spec (css_files : list string) :
  forall (acc : list CSS) (w : world),
    for_each load_css_files_body css_files acc w
    = (inr (acc ++ loaded_sheets (fs w) css_files)%list,
       add_lines w (load_warnings (fs w) css_files)).
Proof.
  induction css_files as [|p l IH]; intros acc w.
  - cbn [for_each loaded_sheets load_warnings flat_map]. unfold ret.
    now rewrite app_nil_r, add_lines_nil.
  - cbn [for_each]. unfold bind. rewrite load_body_spec.
    unfold loaded_sheets, load_warnings. cbn [flat_map].
    fold (loaded_sheets (fs w) l). fold (load_warnings (fs w) l).
    destruct (read_text (fs w) p) as [e|text].
    + rewrite IH, fs_add_lines, add_lines_app. reflexivity.
    + rewrite IH, <- app_assoc. reflexivity.
Qed.

Lemma load_css_files_spec (css_files : list string) (w : world) :
  load_css_files css_files w
  = (inr (loaded_sheets (fs w) css_files ++ [default_css])%list,
     add_lines w (load_warnings (fs w) css_files)).
Proof.
  unfold load_css_files, bind. rewrite load_loop_spec. reflexivity.
Qed.

Lemma lower_nil_not_stylesheet : String.eqb (lower "") "stylesheet" = false.
Proof. reflexivity. Qed.

(** On a well-formed link the loop body appends the resolved reference
    when the file exists and warns when it does not. *)
Lemma find_body_spec (base_dir : string) (acc : list string) (link : node)
    (w : world) :
  link_wf link = true ->
  find_css_files_body base_dir acc link w
  = (inr (acc ++ filter (path_exists (fs w))
                   (map (OsPath.join base_dir) (local_ref link)))%list,
     add_lines w (missing_warnings (fs w)
                    (map (OsPath.join base_dir) (local_ref link)))).
Proof.
  unfold link_wf, find_css_files_body, local_ref, is_stylesheet_link,
    first_token, href_of, get_default, missing_warnings, is_network,
    bind, lift, os_path_exists, ret, raise.
  intros Hwf. apply andb_true_iff in Hwf as [Hrel Hhref].
  assert (Hskip : (@inr exn (list string) acc, w)
                  = (inr (acc ++ [])%list, add_lines w [])).
  { now rewrite app_nil_r, add_lines_nil. }
  destruct (get link "rel") as [[[|c s]|[|t l]]|]; try discriminate Hrel;
    cbn [getitem0]; try rewrite lower_nil_not_stylesheet;
    try (destruct (String.eqb (lower _) "stylesheet"));
    cbn [andb]; try exact Hskip;
    (destruct (get link "href") as [[h|l']|];
     [|discriminate Hhref|exact Hskip]);
    cbn [truthy];
    (destruct (nonempty h); [|exact Hskip]);
    (destruct (startswith_any h ["http://"; "https://"]);
     cbn [negb]; [exact Hskip|]);
    cbn [map filter negb];
    (destruct (path_exists (fs w) (OsPath.join base_dir h));
     cbn [negb map];
     [now rewrite add_lines_nil | now rewrite app_nil_r]).
Qed.

Lemma find_loop_spec (base_dir : string) (links : list node) :
  Forall (fun link => link_wf link = true) links ->
  forall (acc : list string) (w : world),
    for_each (find_css_files_body base_dir) links acc w
    = (inr (acc ++ filter (path_exists (fs w))
                     (resolved_refs base_dir links))%list,
       add_lines w (missing_warnings (fs w) (resolved_refs base_dir links))).
Proof.
  unfold resolved_refs, missing_warnings.
  induction 1 as [|link links Hwf _ IH]; intros acc w; simpl.
  - unfold ret. now rewrite app_nil_r, add_lines_nil.
  - unfold bind at 1. rewrite (find_body_spec _ _ _ _ Hwf).
    rewrite IH. simpl fs.
    rewrite add_lines_app, <- app_assoc.
    unfold missing_warnings.
    now rewrite !map_app, !filter_app, !map_app.
Qed.

Lemma find_css_files_spec (soup : soup_t) (base_dir : string) (w : world) :
  Forall (fun link => link_wf link = true) (find_all soup "link") ->
  find_css_files soup base_dir w
  = (inr (filter (path_exists (fs w))
            (resolved_refs base_dir (find_all soup "link"))),
     add_lines w (missing_warnings (fs w)
                    (resolved_refs base_dir (find_all soup "link")))).
Proof.
  intros Hwf. unfold find_css_files.
  now rewrite (find_loop_spec _ _ Hwf).
Qed.

End CollectorFacts.

(** ** The image loop *)

Section ImageFacts.
Import PyStr Bs4.

Lemma node_rect_nested (P : node -> Prop)
    (Hs : forall s, P (NavigableString s))
    (Ht : forall name attrs contents,
        Forall P contents -> P (Tag name attrs contents)) :
  forall n, P n.
Proof.
  fix IH 1. intros [s|name attrs contents]; [apply Hs|apply Ht].
  induction contents as [|c l IHl]; constructor; [apply IH|exact IHl].
Qed.

Lemma map_exn_inr {A B} (f : A -> exn + B) (l : list A) (l' : list B) :
  map_exn f l = inr l' -> Forall2 (fun x y => f x = inr y) l l'.
Proof.
  revert l'; induction l as [|x l IH]; intros l'; cbn [map_exn].
  - intros [= <-]. constructor.
  - destruct (f x) as [e|y] eqn:Ex; [discriminate|].
    fold (map_exn f l).
    destruct (map_exn f l) as [e|ys]; [discriminate|].
    intros [= <-]. constructor; [exact Ex|now apply IH].
Qed.

Lemma map_exn_total {A B} (f : A -> exn + B) (l : list A) :
  Forall (fun x => exists y, f x = inr y) l -> exists l', map_exn f l = inr l'.
Proof.
  induction 1 as [|x l [y Hy] _ [l' Hl']]; cbn [map_exn].
  - now exists [].
  - fold (map_exn f l). rewrite Hy, Hl'. now exists (y :: l').
Qed.

Lemma dict_get_set (d : attrs_t) (key : string) (v : attr_value) :
  dict_get (dict_set d key v) key = Some v.
Proof.
  induction d as [|[k v0] d IH]; cbn [dict_set dict_get].
  - now rewrite String.eqb_refl.
  - destruct (String.eqb k key) eqn:E; cbn [dict_get]; now rewrite E.
Qed.

(** What the loop body does to an element whose [src] is a string. *)
Lemma img_src_body_str (base_dir : string) (attrs : attrs_t) (src : string) :
  dict_get attrs "src" = Some (AStr src) ->
  img_src_body base_dir attrs
  = inr (if nonempty src
            && negb (startswith_any src ["http://"; "https://"; "/"])
         then dict_set attrs "src"
                (AStr ("file://" ++ OsPath.join base_dir src))
         else attrs).
Proof.
  unfold img_src_body. intros ->.
  now destruct (nonempty src
                && negb (startswith_any src ["http://"; "https://"; "/"])).
Qed.

Lemma img_src_body_total (base_dir : string) (img : node) :
  img_wf img = true -> exists attrs', img_src_body base_dir (tag_attrs img) = inr attrs'.
Proof.
  unfold img_wf, get, img_src_body.
  destruct (dict_get (tag_attrs img) "src") as [[s|l]|]; try discriminate;
    intros _; eauto.
  destruct (nonempty s && negb (startswith_any s ["http://"; "https://"; "/"]));
    eauto.
Qed.

Lemma rewrite_img_src_elements (base_dir : string) :
  forall n n',
    rewrite_img_src base_dir n = inr n' ->
    Forall2 (img_step base_dir) (find_all_node "img" n) (find_all_node "img" n').
Proof.
  induction n as [s|name attrs contents IH] using node_rect_nested;
    intros n'; cbn [rewrite_img_src].
  - intros [= <-]. constructor.
  - destruct (if String.eqb name "img" then img_src_body base_dir attrs
              else inr attrs) as [e|attrs'] eqn:Ea; [discriminate|].
    destruct (map_exn (rewrite_img_src base_dir) contents) as [e|contents'] eqn:Ec;
      [discriminate|].
    intros [= <-]. cbn [find_all_node].
    apply Forall2_app.
    + destruct (String.eqb name "img"); constructor; [exact Ea|constructor].
    + apply map_exn_inr in Ec. clear Ea.
      induction Ec as [|c c' l l' Hc _ IHl]; cbn [flat_map]; [constructor|].
      inversion IH as [|? ? IHc IHrest]; subst.
      apply Forall2_app; [now apply IHc|now apply IHl].
Qed.

Lemma rewrite_img_srcs_elements (base_dir : string) (soup soup' : soup_t) :
  rewrite_img_srcs base_dir soup = inr soup' ->
  Forall2 (img_step base_dir) (find_all soup "img") (find_all soup' "img").
Proof.
  unfold rewrite_img_srcs, find_all. intros H. apply map_exn_inr in H.
  induction H as [|c c' l l' Hc _ IHl]; cbn [flat_map]; [constructor|].
  apply Forall2_app; [now apply rewrite_img_src_elements|exact IHl].
Qed.

Lemma rewrite_img_src_total (base_dir : string) :
  forall n,
    Forall (fun img => img_wf img = true) (find_all_node "img" n) ->
    exists n', rewrite_img_src base_dir n = inr n'.
Proof.
  induction n as [s|name attrs contents IH] using node_rect_nested;
    cbn [rewrite_img_src find_all_node]; intros Hwf; [eauto|].
  apply Forall_app in Hwf as [Hhead Hrest].
  assert (Ha : exists attrs',
             (if String.eqb name "img" then img_src_body base_dir attrs
              else inr attrs) = inr attrs').
  { destruct (String.eqb name "img"); [|eauto].
    inversion Hhead as [|? ? Himg _]; subst.
    exact (img_src_body_total base_dir _ Himg). }
  destruct Ha as [attrs' ->].
  assert (Hc : exists contents',
             map_exn (rewrite_img_src base_dir) contents = inr contents').
  { apply map_exn_total. clear Hhead.
    induction IH as [|c l Hc _ IHl]; constructor;
      cbn [flat_map] in Hrest; apply Forall_app in Hrest as [H1 H2];
      [now apply Hc|now apply IHl]. }
  destruct Hc as [contents' ->]. eauto.
Qed.

Lemma rewrite_img_srcs_total (base_dir : string) (soup : soup_t) :
  Forall (fun img => img_wf img = true) (find_all soup "img") ->
  exists soup', rewrite_img_srcs base_dir soup = inr soup'.
Proof.
  unfold rewrite_img_srcs, find_all. intros Hwf. apply map_exn_total.
  induction soup as [|c l IHl]; constructor;
    cbn [flat_map] in Hwf; apply Forall_app in Hwf as [H1 H2];
    [now apply rewrite_img_src_total|now apply IHl].
Qed.

(** The loop leaves the [link] elements as they were. *)
Lemma rewrite_img_src_links (base_dir : string) :
  forall n n',
    rewrite_img_src base_dir n = inr n' ->
    map tag_attrs (find_all_node "link" n')
    = map tag_attrs (find_all_node "link" n).
Proof.
  induction n as [s|name attrs contents IH] using node_rect_nested;
    intros n'; cbn [rewrite_img_src].
  - now intros [= <-].
  - destruct (if String.eqb name "img" then img_src_body base_dir attrs
              else inr attrs) as [e|attrs'] eqn:Ea; [discriminate|].
    destruct (map_exn (rewrite_img_src base_dir) contents) as [e|contents'] eqn:Ec;
      [discriminate|].
    intros [= <-]. cbn [find_all_node]. rewrite !map_app. f_equal.
    + destruct (String.eqb name "link") eqn:El; [|reflexivity].
      apply String.eqb_eq in El; subst name.
      cbn in Ea. injection Ea as <-. reflexivity.
    + apply map_exn_inr in Ec. clear Ea.
      induction Ec as [|c c' l l' Hc _ IHl]; cbn [flat_map]; [reflexivity|].
      inversion IH as [|? ? IHc IHrest]; subst.
      rewrite !map_app. f_equal; [now apply IHc|now apply IHl].
Qed.

Lemma rewrite_img_srcs_links (base_dir : string) (soup soup' : soup_t) :
  rewrite_img_srcs base_dir soup = inr soup' ->
  map tag_attrs (find_all soup' "link") = map tag_attrs (find_all soup "link").
Proof.
  unfold rewrite_img_srcs, find_all. intros H. apply map_exn_inr in H.
  induction H as [|c c' l l' Hc _ IHl]; cbn [flat_map]; [reflexivity|].
  rewrite !map_app. f_equal; [exact (rewrite_img_src_links _ _ _ Hc)|exact IHl].
Qed.

End ImageFacts.

(** ** The conversion, stage by stage *)

Section ConversionFacts.
Import PyStr Bs4.

Variable os_path_abspath : string -> string.
Variable os_path_dirname : string -> string.
Variable BeautifulSoup : string -> soup_t.
Variable soup_str : soup_t -> string.
Variable weasyprint : render_call -> filesystem -> (exn + unit) * filesystem.

Local Notation convert :=
  (convert_html_to_pdf os_path_abspath os_path_dirname BeautifulSoup soup_str
     weasyprint).
Local Notation write_pdf := (HTML_write_pdf weasyprint).
Local Notation base_of html_path :=
  (os_path_abspath (os_path_dirname html_path)).

(** The scan of the links only prints: whatever it returns or raises,
    the file system and the renderer's calls are as before. *)
Lemma find_body_frame (base_dir : string) (acc : list string) (link : node)
    (w : world) :
  exists lines,
    snd (find_css_files_body base_dir acc link w) = add_lines w lines.
Proof.
  assert (H0 : exists lines, w = add_lines w lines)
    by (exists []; now rewrite add_lines_nil).
  unfold find_css_files_body, bind, lift, os_path_exists, ret, raise.
  destruct (getitem0 (get_default link "rel" (AList [""]))) as [e|rel0];
    [exact H0|].
  destruct (String.eqb (lower rel0) "stylesheet" && truthy (get link "href"));
    [|exact H0].
  destruct (get link "href") as [[h|l]|]; try exact H0.
  destruct (negb (startswith_any h ["http://"; "https://"])); [|exact H0].
  destruct (path_exists (fs w) (OsPath.join base_dir h)); [exact H0|].
  eexists. reflexivity.
Qed.

Lemma find_loop_frame (base_dir : string) (links : list node) :
  forall (acc : list string) (w : world),
  exists lines,
    snd (for_each (find_css_files_body base_dir) links acc w)
    = add_lines w lines.
Proof.
  induction links as [|link links IH]; intros acc w; cbn [for_each].
  - exists []. unfold ret. cbn [snd]. now rewrite add_lines_nil.
  - unfold bind.
    destruct (find_body_frame base_dir acc link w) as [l1 H1].
    destruct (find_css_files_body base_dir acc link w) as [[e|acc'] w1];
      cbn [snd] in H1; subst w1.
    + now exists l1.
    + destruct (IH acc' (add_lines w l1)) as [l2 H2].
      exists (l1 ++ l2)%list. now rewrite H2, add_lines_app.
Qed.

Lemma find_css_files_frame (soup : soup_t) (base_dir : string) (w : world) :
  exists lines, snd (find_css_files soup base_dir w) = add_lines w lines.
Proof. apply find_loop_frame. Qed.

Lemma write_pdf_rendered (markup target : string) (sheets : list CSS)
    (w : world) :
  rendered (snd (write_pdf markup target sheets w))
  = (rendered w
       ++ [{| call_markup := markup; call_target := target;
              call_stylesheets := sheets |}])%list.
Proof.
  unfold HTML_write_pdf. now destruct (weasyprint _ (fs w)).
Qed.

Lemma write_pdf_stdout (markup target : string) (sheets : list CSS)
    (w : world) :
  stdout (snd (write_pdf markup target sheets w)) = stdout w.
Proof.
  unfold HTML_write_pdf. now destruct (weasyprint _ (fs w)).
Qed.

(** The outcome of a rendering call is the renderer's. *)
Lemma write_pdf_outcome (markup target : string) (sheets : list CSS)
    (w : world) :
  (fst (write_pdf markup target sheets w),
   fs (snd (write_pdf markup target sheets w)))
  = weasyprint {| call_markup := markup; call_target := target;
                  call_stylesheets := sheets |} (fs w).
Proof.
  unfold HTML_write_pdf. now destruct (weasyprint _ (fs w)).
Qed.

Lemma convert_read_fails html_path output_pdf page_size margin
    include_css add_page_numbers (w : world) (e : exn) :
  read_text (fs w) html_path = inl e ->
  convert html_path output_pdf page_size margin include_css add_page_numbers w
  = (inl e, w).
Proof.
  intros Hread. unfold convert_html_to_pdf, bind at 1, open_read.
  now rewrite Hread.
Qed.

Lemma convert_rewrite_fails html_path output_pdf page_size margin
    include_css add_page_numbers (w : world) (text : string) (e : exn) :
  read_text (fs w) html_path = inr text ->
  rewrite_img_srcs (base_of html_path) (BeautifulSoup text) = inl e ->
  convert html_path output_pdf page_size margin include_css add_page_numbers w
  = (inl e, w).
Proof.
  intros Hread Himg. unfold convert_html_to_pdf, bind at 1, open_read.
  rewrite Hread. unfold bind at 1, lift. now rewrite Himg.
Qed.

Lemma convert_no_css html_path output_pdf page_size margin add_page_numbers
    (w : world) (text : string) (soup' : soup_t) :
  read_text (fs w) html_path = inr text ->
  rewrite_img_srcs (base_of html_path) (BeautifulSoup text) = inr soup' ->
  convert html_path output_pdf page_size margin false add_page_numbers w
  = write_pdf (soup_str soup') output_pdf
      [CSS_string (page_css page_size margin add_page_numbers)] w.
Proof.
  intros Hread Himg. unfold convert_html_to_pdf, bind at 1, open_read.
  rewrite Hread. unfold bind at 1, lift. rewrite Himg.
  reflexivity.
Qed.

Lemma convert_with_css html_path output_pdf page_size margin add_page_numbers
    (w : world) (text : string) (soup' : soup_t) :
  read_text (fs w) html_path = inr text ->
  rewrite_img_srcs (base_of html_path) (BeautifulSoup text) = inr soup' ->
  convert html_path output_pdf page_size margin true add_page_numbers w
  = match find_css_files soup' (base_of html_path) w with
    | (inl e, w1) => (inl e, w1)
    | (inr css_files, w1) =>
        write_pdf (soup_str soup') output_pdf
          (loaded_sheets (fs w1) css_files
             ++ [default_css;
                 CSS_string (page_css page_size margin add_page_numbers)])%list
          (add_lines w1 (load_warnings (fs w1) css_files))
    end.
Proof.
  intros Hread Himg. unfold convert_html_to_pdf, bind at 1, open_read.
  rewrite Hread. unfold bind at 1, lift. rewrite Himg.
  unfold bind at 1, bind at 1.
  destruct (find_css_files soup' (base_of html_path) w) as [[e|css_files] w1];
    [reflexivity|].
  rewrite load_css_files_spec, <- app_assoc. reflexivity.
Qed.

(** With well-formed links the conversion reaches the renderer. *)
Lemma convert_with_css_wf html_path output_pdf page_size margin
    add_page_numbers (w : world) (text : string) (soup' : soup_t) :
  read_text (fs w) html_path = inr text ->
  rewrite_img_srcs (base_of html_path) (BeautifulSoup text) = inr soup' ->
  Forall (fun link => link_wf link = true) (find_all soup' "link") ->
  let refs := resolved_refs (base_of html_path) (find_all soup' "link") in
  let found := filter (path_exists (fs w)) refs in
  convert html_path output_pdf page_size margin true add_page_numbers w
  = write_pdf (soup_str soup') output_pdf
      (loaded_sheets (fs w) found
         ++ [default_css;
             CSS_string (page_css page_size margin add_page_numbers)])%list
      (add_lines w (missing_warnings (fs w) refs
                      ++ load_warnings (fs w) found)%list).
Proof.
  intros Hread Himg Hwf refs found.
  rewrite (convert_with_css _ _ _ _ _ _ _ _ Hread Himg).
  rewrite (find_css_files_spec _ _ _ Hwf).
  rewrite fs_add_lines, add_lines_app. reflexivity.
Qed.

End ConversionFacts.

(** ** The page rule *)

Section PageRuleFacts.
Import PyStr PyStrFacts.

(** Without page numbers the composer writes no footer of its own: a
    footer selector in the block comes from the size or the margin. *)
Lemma page_css_no_footer (page_size margin : string) :
  contains page_size footer_selector = false ->
  contains margin footer_selector = false ->
  contains (page_css page_size margin false) footer_selector = false.
Proof.
  intros Hsize Hmargin.
  change (page_css page_size margin false)
    with ((nl ++ "        @page {" ++ nl ++ "            size:")
            ++ String " "
                 (page_size
                    ++ String ";"
                         ((nl ++ "            margin:")
                            ++ String " "
                                 (margin
                                    ++ String ";"
                                         (nl ++ "            " ++ nl
                                             ++ "        }" ++ nl ++ "    "))))).
  apply contains_cut_false; [reflexivity|reflexivity|].
  apply contains_cut_false; [reflexivity|exact Hsize|].
  apply contains_cut_false; [reflexivity|reflexivity|].
  apply contains_cut_false; [reflexivity|exact Hmargin|reflexivity].
Qed.

Lemma page_css_shape (page_size margin : string) (add_page_numbers : bool) :
  page_css page_size margin add_page_numbers
  = (nl ++ "        ")
      ++ ("@page {" ++ nl ++ "            size: " ++ page_size ++ ";"
            ++ nl ++ "            margin: " ++ margin ++ ";")
      ++ (nl ++ "            " ++ footer_rule add_page_numbers
             ++ nl ++ "        }" ++ nl ++ "    ").
Proof.
  unfold page_css. rewrite !append_assoc. reflexivity.
Qed.

Lemma page_css_footer_shape (page_size margin : string) :
  page_css page_size margin true
  = (nl ++ "        @page {" ++ nl ++ "            size: " ++ page_size ++ ";"
        ++ nl ++ "            margin: " ++ margin ++ ";"
        ++ nl ++ "            ")
      ++ "@bottom-center { content: counter(page); }"
      ++ (nl ++ "        }" ++ nl ++ "    ").
Proof.
  unfold page_css, footer_rule. rewrite !append_assoc. reflexivity.
Qed.

End PageRuleFacts.

(** ** Properties of the conversion *)

Section Claims.
Import PyStr PyStrFacts Bs4.

Variable os_path_abspath : string -> string.
Variable os_path_dirname : string -> string.
Variable BeautifulSoup : string -> soup_t.
Variable soup_str : soup_t -> string.
Variable weasyprint : render_call -> filesystem -> (exn + unit) * filesystem.

Local Notation convert :=
  (convert_html_to_pdf os_path_abspath os_path_dirname BeautifulSoup soup_str
     weasyprint).
Local Notation run_main :=
  (main os_path_abspath os_path_dirname BeautifulSoup soup_str weasyprint).
Local Notation base_of html_path :=
  (os_path_abspath (os_path_dirname html_path)).

(** C1, as the code has it: when the document is read and its images are
    rewritten, a conversion with [include_css = false] hands the renderer
    exactly one stylesheet, the composed page-rule block; neither a
    document stylesheet nor the default block is in the sequence. *)
Theorem no_css_sequence_is_page_rule_only
    (html_path output_pdf page_size margin : string) (add_page_numbers : bool)
    (w : world) (text : string) (soup' : soup_t) :
  read_text (fs w) html_path = inr text ->
  rewrite_img_srcs (base_of html_path) (BeautifulSoup text) = inr soup' ->
  rendered (snd (convert html_path output_pdf page_size margin false
                   add_page_numbers w))
  = (rendered w
       ++ [{| call_markup := soup_str soup';
              call_target := output_pdf;
              call_stylesheets :=
                [CSS_string (page_css page_size margin add_page_numbers)] |}])%list.
Proof.
  intros Hread Himg.
  erewrite convert_no_css by eassumption.
  apply write_pdf_rendered.
Qed.

(** C2: whatever the options and the document, a conversion either
    raises before it reaches the renderer, and makes no call, or makes
    one call whose stylesheet sequence ends with the block composed from
    the given page size, margin and page-number flag; and it does make
    that call, with the rewritten document, whenever the HTML file is
    read, the image loop returns and, with stylesheets included, the
    scan of the links returns. *)
Theorem page_rule_block_is_last
    (html_path output_pdf page_size margin : string)
    (include_css add_page_numbers : bool) (w : world) :
  let r := convert html_path output_pdf page_size margin include_css
             add_page_numbers w in
  ((rendered (snd r) = rendered w /\ exists e, fst r = inl e)
   \/ exists markup docs,
        rendered (snd r)
        = (rendered w
             ++ [{| call_markup := markup;
                    call_target := output_pdf;
                    call_stylesheets :=
                      (docs ++ [CSS_string (page_css page_size margin
                                              add_page_numbers)])%list |}])%list)
  /\ (forall text soup',
        read_text (fs w) html_path = inr text ->
        rewrite_img_srcs (base_of html_path) (BeautifulSoup text)
        = inr soup' ->
        include_css = false
        \/ (exists css_files w1,
              find_css_files soup' (base_of html_path) w
              = (inr css_files, w1)) ->
        exists docs,
          rendered (snd r)
          = (rendered w
               ++ [{| call_markup := soup_str soup';
                      call_target := output_pdf;
                      call_stylesheets :=
                        (docs ++ [CSS_string (page_css page_size margin
                                                add_page_numbers)])%list |}])%list).
Proof.
  cbv zeta. split.
  - destruct (read_text (fs w) html_path) as [e|text] eqn:Hread.
    { left. erewrite convert_read_fails by eassumption.
      split; [reflexivity|now exists e]. }
    destruct (rewrite_img_srcs (base_of html_path) (BeautifulSoup text))
      as [e|soup'] eqn:Himg.
    { left.
      erewrite convert_rewrite_fails by eassumption.
      split; [reflexivity|now exists e]. }
    destruct include_css.
    + erewrite convert_with_css by eassumption.
      destruct (find_css_files_frame soup' (base_of html_path) w)
        as [lines Hw].
      destruct (find_css_files soup' (base_of html_path) w)
        as [[e|files] w1]; cbn [snd] in Hw; subst w1.
      * left. split; [reflexivity|now exists e].
      * right. exists (soup_str soup').
        exists (loaded_sheets (fs (add_lines w lines)) files
                  ++ [default_css])%list.
        rewrite write_pdf_rendered, <- app_assoc. reflexivity.
    + right. exists (soup_str soup'), [].
      erewrite convert_no_css by eassumption.
      apply write_pdf_rendered.
  - intros text soup' Hread Himg Hreach.
    destruct include_css.
    + destruct Hreach as [Hf|(files & w1 & Hscan)]; [discriminate|].
      erewrite convert_with_css by eassumption. rewrite Hscan.
      destruct (find_css_files_frame soup' (base_of html_path) w)
        as [lines Hw].
      rewrite Hscan in Hw. cbn [snd] in Hw. subst w1.
      exists (loaded_sheets (fs (add_lines w lines)) files
                ++ [default_css])%list.
      rewrite write_pdf_rendered, <- app_assoc. reflexivity.
    + exists []. erewrite convert_no_css by eassumption.
      apply write_pdf_rendered.
Qed.

(** C3, as the code has it: every [img] element whose [src] is a
    non-empty string that starts with none of [http://], [https://] and
    [/] gets [file://] followed by the join of the document's directory
    and the old value, which is a path under that directory; an element
    whose [src] starts with one of the three prefixes, or is the empty
    string, keeps its attributes. *)
Theorem img_src_normalization (base_dir : string) (soup : soup_t) :
  Forall (fun img => img_wf img = true) (find_all soup "img") ->
  exists soup',
    rewrite_img_srcs base_dir soup = inr soup'
    /\ Forall2
         (fun old new =>
            forall src, get old "src" = Some (AStr src) ->
              (nonempty src = true ->
               startswith_any src exempt_prefixes = false ->
               get new "src"
               = Some (AStr ("file://" ++ OsPath.join base_dir src))
               /\ startswith ("file://" ++ OsPath.join base_dir src)
                    ("file://" ++ base_dir) = true)
              /\ (startswith_any src exempt_prefixes = true ->
                  tag_attrs new = tag_attrs old)
              /\ (src = "" -> tag_attrs new = tag_attrs old))
         (find_all soup "img") (find_all soup' "img").
Proof.
  intros Hwf.
  destruct (rewrite_img_srcs_total base_dir soup Hwf) as [soup' Hsoup].
  exists soup'. split; [exact Hsoup|].
  apply rewrite_img_srcs_elements in Hsoup.
  revert Hsoup. apply Forall2_impl.
  intros old new Hstep src Hsrc. unfold img_step, get in *.
  rewrite (img_src_body_str _ _ _ Hsrc) in Hstep.
  unfold exempt_prefixes.
  repeat split.
  - destruct (nonempty src); [|discriminate].
    destruct (startswith_any src ["http://"; "https://"; "/"]);
      [discriminate|].
    cbn [andb negb] in Hstep. injection Hstep as <-. apply dict_get_set.
  - apply startswith_any_slash in H0.
    destruct (join_relative base_dir src H0) as [sep [_ ->]].
    rewrite <- (append_assoc "file://" base_dir (sep ++ src)).
    apply startswith_refl.
  - intros Hex. rewrite Hex, andb_false_r in Hstep. now injection Hstep.
  - intros ->. cbn in Hstep. now injection Hstep.
Qed.

(** C4, as the code has it: the block holds an [@page] rule with the
    given size and margin; with page numbers it also holds the
    bottom-center footer whose content is the page counter; without
    them it holds no footer selector, provided the size and the margin,
    which are copied as given, hold none. *)
Theorem page_css_contents (page_size margin : string)
    (add_page_numbers : bool) :
  contains (page_css page_size margin add_page_numbers)
    ("@page {" ++ nl ++ "            size: " ++ page_size ++ ";"
       ++ nl ++ "            margin: " ++ margin ++ ";") = true
  /\ (add_page_numbers = true ->
      contains (page_css page_size margin add_page_numbers)
        "@bottom-center { content: counter(page); }" = true)
  /\ (add_page_numbers = false ->
      contains page_size footer_selector = false ->
      contains margin footer_selector = false ->
      contains (page_css page_size margin add_page_numbers) footer_selector
      = false).
Proof.
  repeat split.
  - rewrite page_css_shape. apply contains_middle.
  - intros ->. rewrite page_css_footer_shape. apply contains_middle.
  - intros ->. apply page_css_no_footer.
Qed.

Lemma missing_warning_in (f : filesystem) (refs : list string) (p : string) :
  In p refs -> path_exists f p = false ->
  In (not_found_warning p) (missing_warnings f refs).
Proof.
  intros Hin Hp. unfold missing_warnings. apply in_map, filter_In.
  split; [exact Hin|now rewrite Hp].
Qed.

Lemma load_warning_in (f : filesystem) (paths : list string) (p : string)
    (e : exn) :
  In p paths -> read_text f p = inl e ->
  In (load_warning p e) (load_warnings f paths).
Proof.
  intros Hin Hp. unfold load_warnings. apply in_flat_map.
  exists p. split; [exact Hin|]. rewrite Hp. now left.
Qed.

Lemma loaded_sheets_in (f : filesystem) (paths : list string) (c : CSS) :
  In c (loaded_sheets f paths) ->
  exists p, In p paths /\ read_text f p = inr (css_text c).
Proof.
  unfold loaded_sheets. intros Hin. apply in_flat_map in Hin as [p [Hp Hc]].
  exists p. split; [exact Hp|].
  destruct (read_text f p) as [e|text]; [destruct Hc|].
  destruct Hc as [<-|[]]. reflexivity.
Qed.

(** Missing and unreadable stylesheets on a document whose link scan
    raises nothing: every referenced local stylesheet that does not exist
    costs the warning naming its resolved path, every one that exists
    and cannot be read costs the warning naming the path and the error,
    neither is in the sequence handed to the renderer, and the outcome
    of the conversion is the outcome of that one rendering call: no
    stylesheet stops the conversion. *)
Theorem unloadable_stylesheets_are_skipped
    (html_path output_pdf page_size margin : string) (add_page_numbers : bool)
    (w : world) (text : string) (soup' : soup_t) :
  read_text (fs w) html_path = inr text ->
  rewrite_img_srcs (base_of html_path) (BeautifulSoup text) = inr soup' ->
  Forall (fun link => link_wf link = true) (find_all soup' "link") ->
  let refs := resolved_refs (base_of html_path) (find_all soup' "link") in
  let found := filter (path_exists (fs w)) refs in
  let r := convert html_path output_pdf page_size margin true
             add_page_numbers w in
  let call :=
    {| call_markup := soup_str soup';
       call_target := output_pdf;
       call_stylesheets :=
         (loaded_sheets (fs w) found
            ++ [default_css;
                CSS_string (page_css page_size margin add_page_numbers)])%list |} in
  (forall p, In p refs -> path_exists (fs w) p = false ->
     In (not_found_warning p) (stdout (snd r)))
  /\ (forall p e, In p refs -> path_exists (fs w) p = true ->
        read_text (fs w) p = inl e ->
        In (load_warning p e) (stdout (snd r)))
  /\ (forall c, In c (loaded_sheets (fs w) found) ->
        exists p, In p refs /\ path_exists (fs w) p = true
                  /\ read_text (fs w) p = inr (css_text c))
  /\ stdout (snd r)
     = (stdout w ++ missing_warnings (fs w) refs
          ++ load_warnings (fs w) found)%list
  /\ rendered (snd r) = (rendered w ++ [call])%list
  /\ (fst r, fs (snd r)) = weasyprint call (fs w).
Proof.
  intros Hread Himg Hwf refs found r call.
  assert (Hr : r = HTML_write_pdf weasyprint (soup_str soup') output_pdf
                     (call_stylesheets call)
                     (add_lines w (missing_warnings (fs w) refs
                                     ++ load_warnings (fs w) found)%list)).
  { subst r. now erewrite convert_with_css_wf by eassumption. }
  assert (Hout : stdout (snd r)
                 = (stdout w ++ missing_warnings (fs w) refs
                      ++ load_warnings (fs w) found)%list).
  { rewrite Hr, write_pdf_stdout. reflexivity. }
  repeat split.
  - intros p Hin Hp. rewrite Hout. apply in_or_app. right.
    apply in_or_app. left. now apply missing_warning_in.
  - intros p e Hin Hp He. rewrite Hout. apply in_or_app. right.
    apply in_or_app. right. apply load_warning_in; [|exact He].
    apply filter_In. now split.
  - intros c Hc. apply loaded_sheets_in in Hc as [p [Hp Hc]].
    apply filter_In in Hp as [Hp1 Hp2]. now exists p.
  - exact Hout.
  - rewrite Hr, write_pdf_rendered. reflexivity.
  - rewrite Hr, write_pdf_outcome. reflexivity.
Qed.

(** C6, as the code has it: on a document whose links each have a first
    relation token when they have the attribute at all, the collector
    takes the links whose first token is [stylesheet] without regard to
    case and whose reference is a non-empty string, leaves out the
    references that start with [http://] or [https://], joins the others
    to the document's directory, and returns, in document order, the
    text of those that exist and can be read, followed by the default
    block. *)
Theorem collector_selects_stylesheet_links (soup : soup_t)
    (base_dir : string) (w : world) :
  Forall (fun link => link_wf link = true) (find_all soup "link") ->
  let refs := resolved_refs base_dir (find_all soup "link") in
  let found := filter (path_exists (fs w)) refs in
  find_css_files soup base_dir w
  = (inr found, add_lines w (missing_warnings (fs w) refs))
  /\ collect soup base_dir w
     = (inr (loaded_sheets (fs w) found ++ [default_css])%list,
        add_lines w (missing_warnings (fs w) refs
                       ++ load_warnings (fs w) found)%list).
Proof.
  intros Hwf refs found. split.
  - now apply find_css_files_spec.
  - unfold collect, bind. rewrite (find_css_files_spec _ _ _ Hwf).
    rewrite load_css_files_spec, fs_add_lines, add_lines_app. reflexivity.
Qed.

(** C7: [main] always returns normally; when the conversion raised, the
    one line it adds to the output is [Error: ] followed by the text of
    the exception; when the HTML file cannot be read, that line is the
    only change: the file system is as before and the renderer was not
    called. *)
Theorem main_reports_failures (args : args_t) (w : world) :
  let c := convert (html_file args) (output args) (size args)
             (margin_arg args) (negb (no_css args))
             (negb (no_page_numbers args)) w in
  let r := run_main args w in
  fst r = inr tt
  /\ (forall e, fst c = inl e ->
        snd r = add_lines (snd c) ["Error: " ++ exn_str e])
  /\ (fst c = inr tt ->
        snd r = add_lines (snd c)
                  ["Successfully converted " ++ html_file args ++ " to "
                     ++ output args])
  /\ (forall e, read_text (fs w) (html_file args) = inl e ->
        snd r = add_lines w ["Error: " ++ exn_str e]
        /\ fs (snd r) = fs w /\ rendered (snd r) = rendered w).
Proof.
  cbv zeta.
  assert (Hmain : run_main args w
    = match convert (html_file args) (output args) (size args)
              (margin_arg args) (negb (no_css args))
              (negb (no_page_numbers args)) w with
      | (inr _, w') =>
          (inr tt, add_lines w' ["Successfully converted " ++ html_file args
                                   ++ " to " ++ output args])
      | (inl e, w') => (inr tt, add_lines w' ["Error: " ++ exn_str e])
      end).
  { unfold main, try_except, bind.
    destruct (convert _ _ _ _ _ _ w) as [[e|[]] w']; reflexivity. }
  rewrite Hmain.
  repeat split.
  - now destruct (convert _ _ _ _ _ _ w) as [[e|[]] w'].
  - intros e He.
    destruct (convert _ _ _ _ _ _ w) as [[e'|[]] w']; cbn [fst] in He;
      [|discriminate]. now injection He as ->.
  - intros He.
    destruct (convert _ _ _ _ _ _ w) as [[e'|[]] w']; cbn [fst] in He;
      [discriminate|reflexivity].
  - erewrite convert_read_fails by eassumption. reflexivity.
  - erewrite convert_read_fails by eassumption. reflexivity.
  - erewrite convert_read_fails by eassumption. reflexivity.
Qed.

(** C8: the document handed to the renderer is the parsed document with
    its images rewritten, whether or not stylesheets are included: the
    markup of the call made with [include_css = false] and of any call
    made with [include_css = true] is the same serialization. *)
Theorem img_rewrite_ignores_include_css
    (html_path output_pdf page_size margin : string) (add_page_numbers : bool)
    (w : world) (text : string) (soup' : soup_t) :
  read_text (fs w) html_path = inr text ->
  rewrite_img_srcs (base_of html_path) (BeautifulSoup text) = inr soup' ->
  let run include_css :=
    convert html_path output_pdf page_size margin include_css
      add_page_numbers w in
  map call_markup (rendered (snd (run false)))
  = (map call_markup (rendered w) ++ [soup_str soup'])%list
  /\ (map call_markup (rendered (snd (run true)))
      = (map call_markup (rendered w) ++ [soup_str soup'])%list
      \/ (rendered (snd (run true)) = rendered w
          /\ exists e, fst (run true) = inl e))
  /\ (Forall (fun link => link_wf link = true) (find_all soup' "link") ->
      map call_markup (rendered (snd (run true)))
      = map call_markup (rendered (snd (run false)))).
Proof.
  intros Hread Himg run.
  assert (Hfalse : map call_markup (rendered (snd (run false)))
                   = (map call_markup (rendered w) ++ [soup_str soup'])%list).
  { subst run. cbv beta. erewrite convert_no_css by eassumption.
    rewrite write_pdf_rendered, map_app. reflexivity. }
  repeat split.
  - exact Hfalse.
  - subst run. cbv beta. erewrite convert_with_css by eassumption.
    destruct (find_css_files_frame soup' (base_of html_path) w) as [lines Hw].
    destruct (find_css_files soup' (base_of html_path) w) as [[e|files] w1];
      cbn [snd] in Hw; subst w1.
    + right. split; [reflexivity|now exists e].
    + left. rewrite write_pdf_rendered, map_app. reflexivity.
  - intros Hwf. rewrite Hfalse. subst run. cbv beta.
    erewrite convert_with_css_wf by eassumption.
    rewrite write_pdf_rendered, map_app. reflexivity.
Qed.

(** C9: an [img] whose [src] is non-empty and starts with none of the
    three exempt prefixes, as one that already starts with [file://] or
    [data:] does, is rewritten like a relative path: its new [src] is
    [file://], the document's directory, a separator when the directory
    does not end with one, and the whole old value. *)
Theorem scheme_src_is_prefixed_again (base_dir : string) (soup : soup_t) :
  Forall (fun img => img_wf img = true) (find_all soup "img") ->
  exists soup',
    rewrite_img_srcs base_dir soup = inr soup'
    /\ Forall2
         (fun old new =>
            forall src, get old "src" = Some (AStr src) ->
              startswith src "file://" = true
              \/ startswith src "data:" = true
              \/ (nonempty src = true
                  /\ startswith_any src exempt_prefixes = false) ->
              get new "src"
              = Some (AStr ("file://" ++ OsPath.join base_dir src))
              /\ exists sep,
                   (sep = "" \/ sep = "/")
                   /\ "file://" ++ OsPath.join base_dir src
                      = "file://" ++ base_dir ++ sep ++ src)
         (find_all soup "img") (find_all soup' "img").
Proof.
  intros Hwf.
  destruct (rewrite_img_srcs_total base_dir soup Hwf) as [soup' Hsoup].
  exists soup'. split; [exact Hsoup|].
  apply rewrite_img_srcs_elements in Hsoup.
  revert Hsoup. apply Forall2_impl.
  intros old new Hstep src Hsrc Hscheme. unfold img_step, get in *.
  rewrite (img_src_body_str _ _ _ Hsrc) in Hstep.
  assert (Hne : nonempty src = true
                /\ startswith_any src ["http://"; "https://"; "/"] = false).
  { destruct Hscheme as [H|[H|H]]; [| |exact H];
      apply startswith_inv in H as [r ->]; split; reflexivity. }
  destruct Hne as [Hne Hex]. rewrite Hne, Hex in Hstep.
  cbn [andb negb] in Hstep. injection Hstep as <-.
  split; [apply dict_get_set|].
  apply startswith_any_slash in Hex.
  destruct (join_relative base_dir src Hex) as [sep [Hsep ->]].
  now exists sep.
Qed.

(** C10, as the code has it: with stylesheets included and page numbers
    off, once the scan of the links has returned, the sequence handed to
    the renderer is the loaded document stylesheets, then the default
    block, which holds the bottom-center footer with the page counter,
    then the page-rule block; that last block holds no footer selector
    provided the size and the margin, which are copied as given, hold
    none. *)
Theorem default_footer_survives_no_page_numbers
    (html_path output_pdf page_size margin : string)
    (w w1 : world) (text : string) (soup' : soup_t) (css_files : list string) :
  read_text (fs w) html_path = inr text ->
  rewrite_img_srcs (base_of html_path) (BeautifulSoup text) = inr soup' ->
  find_css_files soup' (base_of html_path) w = (inr css_files, w1) ->
  rendered (snd (convert html_path output_pdf page_size margin true false w))
  = (rendered w
       ++ [{| call_markup := soup_str soup';
              call_target := output_pdf;
              call_stylesheets :=
                (loaded_sheets (fs w) css_files
                   ++ [default_css;
                       CSS_string (page_css page_size margin false)])%list |}])%list
  /\ contains (css_text default_css)
       ("@bottom-center {" ++ nl
          ++ "                content: counter(page);" ++ nl
          ++ "            }") = true
  /\ (contains page_size footer_selector = false ->
      contains margin footer_selector = false ->
      contains (page_css page_size margin false) footer_selector = false).
Proof.
  intros Hread Himg Hscan.
  destruct (find_css_files_frame soup' (base_of html_path) w) as [lines Hw].
  rewrite Hscan in Hw. cbn [snd] in Hw. subst w1.
  split; [|split].
  - erewrite convert_with_css by eassumption. rewrite Hscan.
    rewrite write_pdf_rendered. reflexivity.
  - reflexivity.
  - apply page_css_no_footer.
Qed.

End Claims.

(** ** Concrete runs *)

Section Runs.
Import PyStr Bs4.

(** C1 fails as stated: with [include_css = false] the renderer gets one
    stylesheet, not two, and the default block is not among them. *)
Lemma no_css_sequence_lacks_default_block :
  exists c,
    rendered (snd (Demo.convert "/x/doc.html" "out.pdf" "Letter" "2cm"
                     false false Demo.w0)) = [c]
    /\ length (call_stylesheets c) = 1
    /\ length (call_stylesheets c) <> 2
    /\ ~ In default_css (call_stylesheets c).
Proof.
  eexists. split; [reflexivity|]. cbn [call_stylesheets length].
  split; [reflexivity|]. split; [discriminate|].
  intros [H|[]]. apply (f_equal css_text) in H.
  apply (f_equal (fun s => contains s "@top-center")) in H.
  vm_compute in H. discriminate H.
Qed.

Lemma no_css_sequence_is_page_rule_only_witness :
  read_text (fs Demo.w0) "/x/doc.html" = inr "<html>...</html>"
  /\ rewrite_img_srcs "/x" Demo.soup = inr Demo.soup_rewritten
  /\ rendered (snd (Demo.convert "/x/doc.html" "out.pdf" "Letter" "2cm"
                      false false Demo.w0))
     = [{| call_markup := Demo.str Demo.soup_rewritten;
           call_target := "out.pdf";
           call_stylesheets := [CSS_string (page_css "Letter" "2cm" false)] |}].
Proof.
  split; [reflexivity|]. split; [reflexivity|].
  exact (no_css_sequence_is_page_rule_only Demo.abspath Demo.dirname
           Demo.parse Demo.str Demo.renderer "/x/doc.html" "out.pdf"
           "Letter" "2cm" false Demo.w0 "<html>...</html>"
           Demo.soup_rewritten eq_refl eq_refl).
Defined.

(** C3 fails as stated: an empty [src] is present and starts with none
    of the three prefixes, and the loop leaves it empty. *)
Lemma empty_src_is_not_rewritten :
  find_all Demo.soup_empty_src "img" = Demo.soup_empty_src
  /\ Forall (fun img => get img "src" = Some (AStr "")) Demo.soup_empty_src
  /\ startswith_any "" exempt_prefixes = false
  /\ rewrite_img_srcs "/x" Demo.soup_empty_src = inr Demo.soup_empty_src
  /\ Forall (fun img =>
               get img "src"
               <> Some (AStr ("file://" ++ OsPath.join "/x" "")))
       Demo.soup_empty_src.
Proof.
  repeat split; repeat constructor. discriminate.
Qed.

Lemma img_src_normalization_witness :
  Forall (fun img => img_wf img = true) (find_all Demo.soup "img")
  /\ exists soup',
       rewrite_img_srcs "/x" Demo.soup = inr soup'
       /\ Forall2
            (fun old new =>
               forall src, get old "src" = Some (AStr src) ->
                 (nonempty src = true ->
                  startswith_any src exempt_prefixes = false ->
                  get new "src"
                  = Some (AStr ("file://" ++ OsPath.join "/x" src))
                  /\ startswith ("file://" ++ OsPath.join "/x" src)
                       ("file://" ++ "/x") = true)
                 /\ (startswith_any src exempt_prefixes = true ->
                     tag_attrs new = tag_attrs old)
                 /\ (src = "" -> tag_attrs new = tag_attrs old))
            (find_all Demo.soup "img") (find_all soup' "img").
Proof.
  split; [repeat constructor|].
  apply (img_src_normalization "/x" Demo.soup). repeat constructor.
Defined.

(** C4 fails as stated: a footer rule given with the margin is in the
    block although page numbers are off. *)
Lemma footer_through_margin :
  contains (page_css "A4" Demo.margin_with_counter false)
    "@bottom-center { content: counter(page); }" = true.
Proof. reflexivity. Qed.

Lemma page_css_contents_witness :
  contains (page_css "Letter" "2cm" true)
    "@bottom-center { content: counter(page); }" = true
  /\ contains (page_css "Letter" "2cm" false) footer_selector = false.
Proof.
  split.
  - exact (proj1 (proj2 (page_css_contents "Letter" "2cm" true)) eq_refl).
  - exact (proj2 (proj2 (page_css_contents "Letter" "2cm" false))
             eq_refl eq_refl eq_refl).
Defined.

Lemma page_rule_block_is_last_witness :
  (exists docs,
     rendered (snd (Demo.convert "/x/doc.html" "out.pdf" "Letter" "2cm"
                      true false Demo.w0))
     = [{| call_markup := Demo.str Demo.soup_rewritten;
           call_target := "out.pdf";
           call_stylesheets :=
             (docs ++ [CSS_string (page_css "Letter" "2cm" false)])%list |}])
  /\ (exists docs,
        rendered (snd (Demo.convert "/x/doc.html" "out.pdf" "Letter" "2cm"
                         false false Demo.w0))
        = [{| call_markup := Demo.str Demo.soup_rewritten;
              call_target := "out.pdf";
              call_stylesheets :=
                (docs ++ [CSS_string (page_css "Letter" "2cm" false)])%list |}]).
Proof.
  split.
  - exact (proj2 (page_rule_block_is_last Demo.abspath Demo.dirname
                    Demo.parse Demo.str Demo.renderer "/x/doc.html" "out.pdf"
                    "Letter" "2cm" true false Demo.w0)
             "<html>...</html>" Demo.soup_rewritten eq_refl eq_refl
             (or_intror (ex_intro _ ["/x/style.css"]
                           (ex_intro _ Demo.w0 eq_refl)))).
  - exact (proj2 (page_rule_block_is_last Demo.abspath Demo.dirname
                    Demo.parse Demo.str Demo.renderer "/x/doc.html" "out.pdf"
                    "Letter" "2cm" false false Demo.w0)
             "<html>...</html>" Demo.soup_rewritten eq_refl eq_refl
             (or_introl eq_refl)).
Defined.

(** C5 fails in the code: the document has a link whose relation
    attribute has no token before a stylesheet link to a file that does
    not exist; the scan raises [IndexError] on the first link, so the
    missing stylesheet gets no warning, the conversion raises, the
    renderer is not called and no output file is made. *)
Lemma missing_stylesheet_after_empty_rel_is_not_reported :
  let soup := Demo.soup_empty_rel_then_missing in
  let r := convert_html_to_pdf Demo.abspath Demo.dirname (fun _ => soup)
             Demo.str Demo.renderer "/x/doc.html" "output.pdf" "A4" "1cm"
             true true Demo.w0 in
  rewrite_img_srcs "/x" soup = inr soup
  /\ resolved_refs "/x" (find_all soup "link") = ["/x/missing.css"]
  /\ path_exists (fs Demo.w0) "/x/missing.css" = false
  /\ fst r = inl (IndexError "list index out of range")
  /\ stdout (snd r) = []
  /\ rendered (snd r) = []
  /\ path_exists (fs (snd r)) "output.pdf" = false.
Proof. cbv zeta. repeat split. Qed.

Lemma unloadable_stylesheets_are_skipped_witness :
  let r := Demo.convert "/x/doc.html" "output.pdf" "A4" "1cm" true true
             Demo.w_no_css in
  path_exists (fs Demo.w_no_css) "/x/style.css" = false
  /\ In (not_found_warning "/x/style.css") (stdout (snd r))
  /\ rendered (snd r)
     = [{| call_markup := Demo.str Demo.soup_rewritten;
           call_target := "output.pdf";
           call_stylesheets :=
             [default_css; CSS_string (page_css "A4" "1cm" true)] |}]
  /\ fst r = inr tt
  /\ path_exists (fs (snd r)) "output.pdf" = true.
Proof.
  cbv zeta.
  pose proof (unloadable_stylesheets_are_skipped Demo.abspath Demo.dirname
                Demo.parse Demo.str Demo.renderer "/x/doc.html" "output.pdf"
                "A4" "1cm" true Demo.w_no_css "<html>...</html>"
                Demo.soup_rewritten eq_refl eq_refl
                ltac:(repeat constructor)) as H.
  cbv zeta in H. destruct H as (Hmiss & _ & _ & _ & Hcall & Hout).
  split; [reflexivity|].
  split; [apply Hmiss; [left; reflexivity|reflexivity]|].
  split; [exact Hcall|].
  split; [exact (f_equal fst Hout)|].
  exact (f_equal (fun p => path_exists (snd p) "output.pdf") Hout).
Defined.

(** C6 fails as stated: a stylesheet link whose reference is present
    and empty is not taken, although the path it resolves to exists. *)
Lemma empty_href_is_not_selected :
  find_all Demo.soup_empty_href "link" = Demo.soup_empty_href
  /\ Forall (fun link =>
               is_stylesheet_link link = true
               /\ get link "href" = Some (AStr "")
               /\ is_network "" = false
               /\ path_exists (fs Demo.w_dir) (OsPath.join "/x" "") = true)
       Demo.soup_empty_href
  /\ find_css_files Demo.soup_empty_href "/x" Demo.w_dir = (inr [], Demo.w_dir).
Proof. repeat split; repeat constructor. Qed.

Lemma collector_selects_stylesheet_links_witness :
  Forall (fun link => link_wf link = true) (find_all Demo.soup "link")
  /\ find_css_files Demo.soup "/x" Demo.w0 = (inr ["/x/style.css"], Demo.w0)
  /\ collect Demo.soup "/x" Demo.w0
     = (inr [CSS_string "body { color: black; }"; default_css], Demo.w0).
Proof.
  split; [repeat constructor|].
  exact (collector_selects_stylesheet_links Demo.soup "/x" Demo.w0
           ltac:(repeat constructor)).
Defined.

(** The scan on a relation attribute without a token: the first [link]
    of the document is [<link rel="" href="print.css">]; the scan raises
    [IndexError] on it, the second link is never looked at, and the
    conversion ends there, before the renderer is called. *)
Lemma empty_rel_aborts_the_scan :
  map is_stylesheet_link (find_all Demo.soup_empty_rel "link") = [false; true]
  /\ resolved_refs "/x" (find_all Demo.soup_empty_rel "link")
     = ["/x/style.css"]
  /\ find_css_files Demo.soup_empty_rel "/x" Demo.w0
     = (inl (IndexError "list index out of range"), Demo.w0)
  /\ (let r := Demo.convert_empty_rel "/x/doc.html" "output.pdf" "A4" "1cm"
                 true true Demo.w0 in
      fst r = inl (IndexError "list index out of range")
      /\ rendered (snd r) = []).
Proof. repeat split. Qed.

Lemma main_reports_failures_witness :
  read_text (fs Demo.w0) "/x/missing.html"
  = inl (Demo.no_such_file "/x/missing.html")
  /\ fst (Demo.run_main Demo.args_missing Demo.w0) = inr tt
  /\ snd (Demo.run_main Demo.args_missing Demo.w0)
     = add_lines Demo.w0
         ["Error: [Errno 2] No such file or directory: '/x/missing.html'"].
Proof.
  pose proof (main_reports_failures Demo.abspath Demo.dirname Demo.parse
                Demo.str Demo.renderer Demo.args_missing Demo.w0) as H.
  cbv zeta in H. destruct H as (Hret & _ & _ & Hread).
  split; [reflexivity|]. split; [exact Hret|].
  exact (proj1 (Hread (Demo.no_such_file "/x/missing.html") eq_refl)).
Defined.

Lemma img_rewrite_ignores_include_css_witness :
  map call_markup
    (rendered (snd (Demo.convert "/x/doc.html" "output.pdf" "A4" "1cm"
                      true true Demo.w0)))
  = map call_markup
      (rendered (snd (Demo.convert "/x/doc.html" "output.pdf" "A4" "1cm"
                        false true Demo.w0)))
  /\ map call_markup
       (rendered (snd (Demo.convert "/x/doc.html" "output.pdf" "A4" "1cm"
                         false true Demo.w0)))
     = [Demo.str Demo.soup_rewritten].
Proof.
  pose proof (img_rewrite_ignores_include_css Demo.abspath Demo.dirname
                Demo.parse Demo.str Demo.renderer "/x/doc.html" "output.pdf"
                "A4" "1cm" true Demo.w0 "<html>...</html>"
                Demo.soup_rewritten eq_refl eq_refl) as H.
  cbv zeta in H. destruct H as (Hfalse & _ & Hsame).
  split; [apply Hsame; repeat constructor|exact Hfalse].
Defined.

Lemma scheme_src_is_prefixed_again_witness :
  Forall (fun img => img_wf img = true) (find_all Demo.soup_schemes "img")
  /\ rewrite_img_srcs "/x" Demo.soup_schemes
     = inr [Tag "img" [("src", AStr "file:///x/file:///x/pic.png")] [];
            Tag "img" [("src", AStr "file:///x/data:image/png;base64,AAAA")] []]
  /\ exists soup',
       rewrite_img_srcs "/x" Demo.soup_schemes = inr soup'
       /\ Forall2
            (fun old new =>
               forall src, get old "src" = Some (AStr src) ->
                 startswith src "file://" = true
                 \/ startswith src "data:" = true
                 \/ (nonempty src = true
                     /\ startswith_any src exempt_prefixes = false) ->
                 get new "src"
                 = Some (AStr ("file://" ++ OsPath.join "/x" src))
                 /\ exists sep,
                      (sep = "" \/ sep = "/")
                      /\ "file://" ++ OsPath.join "/x" src
                         = "file://" ++ "/x" ++ sep ++ src)
            (find_all Demo.soup_schemes "img") (find_all soup' "img").
Proof.
  split; [repeat constructor|]. split; [reflexivity|].
  apply (scheme_src_is_prefixed_again "/x" Demo.soup_schemes).
  repeat constructor.
Defined.

(** C10 fails as stated: with a stylesheet loaded and page numbers off,
    a footer rule given with the margin is in the page-rule block, after
    the default block whose footer it overrides. *)
Lemma margin_footer_follows_default_block :
  exists c block,
    rendered (snd (Demo.convert "/x/doc.html" "output.pdf" "A4"
                     Demo.margin_with_footer true false Demo.w0)) = [c]
    /\ call_stylesheets c
       = [CSS_string "body { color: black; }"; default_css; CSS_string block]
    /\ block = page_css "A4" Demo.margin_with_footer false
    /\ contains block "@bottom-center { content: none; }" = true.
Proof.
  eexists. eexists. split; [reflexivity|]. cbn [call_stylesheets].
  split; [reflexivity|]. split; reflexivity.
Qed.

Lemma default_footer_survives_no_page_numbers_witness :
  find_css_files Demo.soup_rewritten "/x" Demo.w0
  = (inr ["/x/style.css"], Demo.w0)
  /\ rendered (snd (Demo.convert "/x/doc.html" "output.pdf" "A4" "1cm"
                      true false Demo.w0))
     = [{| call_markup := Demo.str Demo.soup_rewritten;
           call_target := "output.pdf";
           call_stylesheets :=
             [CSS_string "body { color: black; }"; default_css;
              CSS_string (page_css "A4" "1cm" false)] |}]
  /\ contains (page_css "A4" "1cm" false) footer_selector = false.
Proof.
  pose proof (default_footer_survives_no_page_numbers Demo.abspath
                Demo.dirname Demo.parse Demo.str Demo.renderer "/x/doc.html"
                "output.pdf" "A4" "1cm" Demo.w0 Demo.w0 "<html>...</html>"
                Demo.soup_rewritten ["/x/style.css"]
                eq_refl eq_refl eq_refl) as H.
  destruct H as (Hcall & _ & Hfooter).
  split; [reflexivity|].
  split; [exact Hcall|exact (Hfooter eq_refl eq_refl)].
Defined.

End Runs.

(** ** Further properties of the collector *)

Section CollectorProperties.
Import PyStr PyStrFacts Bs4.

Lemma for_each_app {A S} (body : S -> A -> M S) (l1 l2 : list A) :
  forall (acc : S) (w : world),
    for_each body (l1 ++ l2)%list acc w
    = match for_each body l1 acc w with
      | (inr acc', w') => for_each body l2 acc' w'
      | (inl e, w') => (inl e, w')
      end.
Proof.
  induction l1 as [|x l1 IH]; intros acc w; cbn [for_each app].
  - reflexivity.
  - unfold bind. destruct (body acc x w) as [[e|acc'] w']; [reflexivity|].
    apply IH.
Qed.

Lemma first_token_getitem0 (link : node) (t : string) :
  first_token link = Some t ->
  getitem0 (get_default link "rel" (AList [""])) = inr t.
Proof.
  unfold first_token, get_default.
  destruct (get link "rel") as [[[|c s]|[|t' l]]|]; try discriminate;
    now intros [= <-].
Qed.

(** Every stylesheet path is answered by exactly one thing, a loaded
    stylesheet or a warning; loading never raises, and the default block
    closes the result. *)
Theorem load_css_files_accounts_for_every_path (css_files : list string)
    (w : world) :
  exists sheets lines,
    load_css_files css_files w
    = (inr (sheets ++ [default_css])%list, add_lines w lines)
    /\ length sheets + length lines = length css_files
    /\ Forall (fun line =>
                 startswith line "Warning: Could not load CSS file " = true)
         lines.
Proof.
  exists (loaded_sheets (fs w) css_files), (load_warnings (fs w) css_files).
  split; [apply load_css_files_spec|].
  unfold loaded_sheets, load_warnings.
  induction css_files as [|p l [IHlen IHall]]; cbn [flat_map length].
  - split; [reflexivity|constructor].
  - rewrite !length_app.
    destruct (read_text (fs w) p) as [e|text]; cbn [length app].
    + split; [lia|]. constructor; [|exact IHall].
      unfold load_warning.
      exact (startswith_refl "Warning: Could not load CSS file " _).
    + split; [lia|exact IHall].
Qed.

Lemma find_body_invariant (base_dir : string) (acc : list string)
    (link : node) (w : world) :
  exists lines,
    snd (find_css_files_body base_dir acc link w) = add_lines w lines
    /\ Forall (fun line =>
                 startswith line "Warning: CSS file not found: " = true) lines
    /\ forall files,
         fst (find_css_files_body base_dir acc link w) = inr files ->
         exists more,
           files = (acc ++ more)%list
           /\ Forall (fun p => path_exists (fs w) p = true) more.
Proof.
  assert (H0 : forall r : exn + list string,
            (forall files, r = inr files -> files = acc) ->
            exists lines,
              snd (r, w) = add_lines w lines
              /\ Forall (fun line =>
                    startswith line "Warning: CSS file not found: " = true)
                   lines
              /\ forall files, fst (r, w) = inr files ->
                   exists more,
                     files = (acc ++ more)%list
                     /\ Forall (fun p => path_exists (fs w) p = true) more).
  { intros r Hr. exists []. cbn [fst snd]. rewrite add_lines_nil.
    split; [reflexivity|]. split; [constructor|].
    intros files Hf. exists []. rewrite app_nil_r.
    split; [now apply Hr|constructor]. }
  unfold find_css_files_body, bind, lift, os_path_exists, ret, raise.
  destruct (getitem0 (get_default link "rel" (AList [""]))) as [e|rel0];
    [apply H0; discriminate|].
  destruct (String.eqb (lower rel0) "stylesheet" && truthy (get link "href"));
    [|apply H0; now intros files [= <-]].
  destruct (get link "href") as [[h|l]|]; try (apply H0; discriminate).
  destruct (negb (startswith_any h ["http://"; "https://"]));
    [|apply H0; now intros files [= <-]].
  destruct (path_exists (fs w) (OsPath.join base_dir h)) eqn:Hex.
  - exists []. cbn [fst snd]. rewrite add_lines_nil.
    split; [reflexivity|]. split; [constructor|].
    intros files [= <-]. exists [OsPath.join base_dir h].
    split; [reflexivity|]. constructor; [exact Hex|constructor].
  - exists ["Warning: CSS file not found: " ++ OsPath.join base_dir h].
    cbn [fst snd]. split; [reflexivity|]. split.
    + constructor; [|constructor].
      exact (startswith_refl "Warning: CSS file not found: " _).
    + intros files [= <-]. exists []. rewrite app_nil_r.
      split; [reflexivity|constructor].
Qed.

Lemma find_loop_invariant (base_dir : string) (links : list node) :
  forall (acc : list string) (w : world),
  exists lines,
    snd (for_each (find_css_files_body base_dir) links acc w)
    = add_lines w lines
    /\ Forall (fun line =>
                 startswith line "Warning: CSS file not found: " = true) lines
    /\ forall files,
         fst (for_each (find_css_files_body base_dir) links acc w) = inr files ->
         exists more,
           files = (acc ++ more)%list
           /\ Forall (fun p => path_exists (fs w) p = true) more.
Proof.
  induction links as [|link links IH]; intros acc w; cbn [for_each].
  - exists []. unfold ret. cbn [fst snd]. rewrite add_lines_nil.
    split; [reflexivity|]. split; [constructor|].
    intros files [= <-]. exists []. rewrite app_nil_r.
    split; [reflexivity|constructor].
  - unfold bind.
    destruct (find_body_invariant base_dir acc link w) as (l1 & Hw & Hl1 & Hf).
    destruct (find_css_files_body base_dir acc link w) as [[e|acc'] w1];
      cbn [fst snd] in Hw, Hf; subst w1.
    + exists l1. cbn [fst snd]. split; [reflexivity|].
      split; [exact Hl1|discriminate].
    + destruct (Hf acc' eq_refl) as (m1 & -> & Hm1).
      destruct (IH (acc ++ m1)%list (add_lines w l1)) as (l2 & Hw2 & Hl2 & Hf2).
      exists (l1 ++ l2)%list. rewrite Hw2, add_lines_app.
      split; [reflexivity|]. split; [now apply Forall_app|].
      intros files Hfiles. destruct (Hf2 files Hfiles) as (m2 & -> & Hm2).
      exists (m1 ++ m2)%list. rewrite app_assoc.
      split; [reflexivity|]. apply Forall_app. split; [exact Hm1|exact Hm2].
Qed.

(** Whatever the document, the scan of the links changes nothing but the
    output, prints nothing but not-found warnings, and returns, when it
    returns, only paths that exist. *)
Theorem find_css_files_returns_existing_paths (soup : soup_t)
    (base_dir : string) (w : world) :
  let r := find_css_files soup base_dir w in
  exists lines,
    snd r = add_lines w lines
    /\ Forall (fun line =>
                 startswith line "Warning: CSS file not found: " = true) lines
    /\ forall files,
         fst r = inr files ->
         Forall (fun p => path_exists (fs w) p = true) files.
Proof.
  cbv zeta. unfold find_css_files.
  destruct (find_loop_invariant base_dir (find_all soup "link") [] w)
    as (lines & Hw & Hl & Hf).
  exists lines. split; [exact Hw|]. split; [exact Hl|].
  intros files Hfiles. now destruct (Hf files Hfiles) as (more & -> & Hm).
Qed.


(** An absolute reference is taken as it is: the directory of the
    document plays no part in the path that is checked, returned or
    named in the warning. *)
Theorem absolute_href_ignores_base_dir (base_dir : string)
    (acc : list string) (link : node) (w : world) (t h : string) :
  first_token link = Some t ->
  String.eqb (lower t) "stylesheet" = true ->
  get link "href" = Some (AStr h) ->
  startswith h "/" = true ->
  find_css_files_body base_dir acc link w
  = if path_exists (fs w) h then (inr (acc ++ [h])%list, w)
    else (inr acc, add_lines w [not_found_warning h]).
Proof.
  intros Ht Hst Hhref Habs.
  unfold find_css_files_body, bind, lift.
  rewrite (first_token_getitem0 _ _ Ht), Hst, Hhref.
  assert (Hjoin : OsPath.join base_dir h = h)
    by (unfold OsPath.join; now rewrite Habs).
  apply startswith_inv in Habs as [r ->].
  cbn [truthy nonempty andb].
  change (startswith_any ("/" ++ r) ["http://"; "https://"]) with false.
  cbn [negb]. rewrite Hjoin.
  unfold os_path_exists, ret.
  change (nonempty ("/" ++ r)) with true. cbv beta iota.
  now destruct (path_exists (fs w) ("/" ++ r)).
Qed.

(** A link whose relation attribute is present without a token stops the
    scan with [IndexError]: the links before it were handled, their
    warnings stay printed, and the links after it are never looked at. *)
Theorem empty_rel_raises_index_error (soup : soup_t) (base_dir : string)
    (w : world) (before after : list node) (bad : node) :
  find_all soup "link" = (before ++ bad :: after)%list ->
  Forall (fun link => link_wf link = true) before ->
  get bad "rel" = Some (AList []) ->
  find_css_files soup base_dir w
  = (inl (IndexError "list index out of range"),
     add_lines w (missing_warnings (fs w) (resolved_refs base_dir before))).
Proof.
  intros Hlinks Hwf Hbad. unfold find_css_files.
  rewrite Hlinks, for_each_app, (find_loop_spec _ _ Hwf).
  cbn [for_each]. unfold bind at 1, find_css_files_body at 1, bind, lift,
    get_default.
  rewrite Hbad. reflexivity.
Qed.

End CollectorProperties.

(** ** Further properties of the image loop *)

Section ImageProperties.
Import PyStr PyStrFacts Bs4.

Lemma dict_get_set_other (d : attrs_t) (key key' : string) (v : attr_value) :
  key' <> key -> dict_get (dict_set d key v) key' = dict_get d key'.
Proof.
  intros Hne. induction d as [|[k v0] d IH]; cbn [dict_set dict_get].
  - destruct (String.eqb key key') eqn:E; [|reflexivity].
    apply String.eqb_eq in E. congruence.
  - destruct (String.eqb k key) eqn:E; cbn [dict_get].
    + apply String.eqb_eq in E; subst k.
      destruct (String.eqb key key') eqn:E'; [|reflexivity].
      apply String.eqb_eq in E'. congruence.
    + now rewrite IH.
Qed.

Lemma dict_set_keys (d : attrs_t) (key : string) (v v0 : attr_value) :
  dict_get d key = Some v0 -> map fst (dict_set d key v) = map fst d.
Proof.
  induction d as [|[k v1] d IH]; cbn [dict_set dict_get map fst];
    [discriminate|].
  destruct (String.eqb k key); cbn [map fst]; [reflexivity|].
  intros H. now rewrite (IH H).
Qed.

Lemma img_src_body_keeps (base_dir : string) (attrs attrs' : attrs_t) :
  img_src_body base_dir attrs = inr attrs' ->
  map fst attrs' = map fst attrs
  /\ forall key, key <> "src" -> dict_get attrs' key = dict_get attrs key.
Proof.
  unfold img_src_body.
  destruct (dict_get attrs "src") as [[s|[|t l]]|] eqn:Hsrc;
    try discriminate; try (intros [= <-]; now split).
  destruct (nonempty s && negb (startswith_any s ["http://"; "https://"; "/"]));
    intros [= <-]; [|now split].
  split; [exact (dict_set_keys _ _ _ _ Hsrc)|].
  intros key Hkey. now apply dict_get_set_other.
Qed.

Lemma rewrite_img_src_others (base_dir name : string) :
  String.eqb name "img" = false ->
  forall n n',
    rewrite_img_src base_dir n = inr n' ->
    map tag_attrs (find_all_node name n')
    = map tag_attrs (find_all_node name n).
Proof.
  intros Hname.
  induction n as [s|nm attrs contents IH] using node_rect_nested;
    intros n'; cbn [rewrite_img_src].
  - now intros [= <-].
  - destruct (if String.eqb nm "img" then img_src_body base_dir attrs
              else inr attrs) as [e|attrs'] eqn:Ea; [discriminate|].
    destruct (map_exn (rewrite_img_src base_dir) contents)
      as [e|contents'] eqn:Ec; [discriminate|].
    intros [= <-]. cbn [find_all_node]. rewrite !map_app. f_equal.
    + destruct (String.eqb nm name) eqn:El; [|reflexivity].
      apply String.eqb_eq in El; subst nm.
      rewrite Hname in Ea. injection Ea as <-. reflexivity.
    + apply map_exn_inr in Ec. clear Ea.
      induction Ec as [|c c' l l' Hc _ IHl]; cbn [flat_map]; [reflexivity|].
      inversion IH as [|? ? IHc IHrest]; subst.
      rewrite !map_app. f_equal; [now apply IHc|now apply IHl].
Qed.

Lemma dict_del_set (d : attrs_t) (key : string) (v : attr_value) :
  dict_del (dict_set d key v) key = dict_del d key.
Proof.
  unfold dict_del.
  induction d as [|[k v0] d IH]; cbn [dict_set filter fst].
  - now rewrite String.eqb_refl.
  - destruct (String.eqb k key) eqn:E; cbn [filter fst]; rewrite E;
      cbn [negb]; [reflexivity|now rewrite IH].
Qed.

Lemma img_src_body_del (base_dir : string) (attrs attrs' : attrs_t) :
  img_src_body base_dir attrs = inr attrs' ->
  dict_del attrs' "src" = dict_del attrs "src".
Proof.
  unfold img_src_body.
  destruct (dict_get attrs "src") as [[s|[|t l]]|];
    try discriminate; try now intros [= <-].
  destruct (nonempty s && negb (startswith_any s ["http://"; "https://"; "/"]));
    intros [= <-]; [apply dict_del_set|reflexivity].
Qed.

Lemma rewrite_img_src_shape (base_dir : string) :
  forall n n',
    rewrite_img_src base_dir n = inr n' ->
    without_img_src n' = without_img_src n.
Proof.
  induction n as [s|nm attrs contents IH] using node_rect_nested;
    intros n'; cbn [rewrite_img_src].
  - now intros [= <-].
  - destruct (if String.eqb nm "img" then img_src_body base_dir attrs
              else inr attrs) as [e|attrs'] eqn:Ea; [discriminate|].
    destruct (map_exn (rewrite_img_src base_dir) contents)
      as [e|contents'] eqn:Ec; [discriminate|].
    intros [= <-]. cbn [without_img_src]. f_equal.
    + destruct (String.eqb nm "img");
        [exact (img_src_body_del _ _ _ Ea)|now injection Ea].
    + apply map_exn_inr in Ec. clear Ea.
      induction Ec as [|c c' l l' Hc _ IHl]; cbn [map]; [reflexivity|].
      inversion IH as [|? ? IHc IHrest]; subst.
      f_equal; [now apply IHc|now apply IHl].
Qed.

(** The image loop touches nothing but the [src] of [img] elements:
    with the [src] entries of the [img] elements taken out, the tree
    after the loop is the tree before it, text nodes, nesting, tag
    names and attributes alike; the elements of every other name keep
    their attributes, and an [img] keeps its attribute names, in their
    order, and the value of every attribute other than [src]. *)
Theorem image_loop_touches_only_img_src (base_dir : string)
    (soup soup' : soup_t) :
  rewrite_img_srcs base_dir soup = inr soup' ->
  map without_img_src soup' = map without_img_src soup
  /\ (forall name, name <> "img" ->
        map tag_attrs (find_all soup' name)
        = map tag_attrs (find_all soup name))
  /\ Forall2
       (fun old new =>
          map fst (tag_attrs new) = map fst (tag_attrs old)
          /\ forall key, key <> "src" -> get new key = get old key)
       (find_all soup "img") (find_all soup' "img").
Proof.
  intros Hsoup. split; [|split].
  - unfold rewrite_img_srcs in Hsoup. apply map_exn_inr in Hsoup.
    induction Hsoup as [|c c' l l' Hc _ IHl]; cbn [map]; [reflexivity|].
    f_equal; [exact (rewrite_img_src_shape _ _ _ Hc)|exact IHl].
  - intros name Hname.
    assert (Hn : String.eqb name "img" = false) by now apply String.eqb_neq.
    unfold rewrite_img_srcs, find_all in *. apply map_exn_inr in Hsoup.
    induction Hsoup as [|c c' l l' Hc _ IHl]; cbn [flat_map]; [reflexivity|].
    rewrite !map_app. f_equal;
      [exact (rewrite_img_src_others _ _ Hn _ _ Hc)|exact IHl].
  - apply rewrite_img_srcs_elements in Hsoup. revert Hsoup.
    apply Forall2_impl. intros old new Hstep. unfold img_step in Hstep.
    exact (img_src_body_keeps _ _ _ Hstep).
Qed.

Lemma find_body_attrs (base_dir : string) (acc : list string)
    (link link' : node) (w : world) :
  tag_attrs link' = tag_attrs link ->
  find_css_files_body base_dir acc link' w
  = find_css_files_body base_dir acc link w.
Proof.
  intros H. unfold find_css_files_body, get_default, get. now rewrite H.
Qed.

Lemma find_loop_attrs (base_dir : string) (links links' : list node) :
  map tag_attrs links' = map tag_attrs links ->
  forall (acc : list string) (w : world),
    for_each (find_css_files_body base_dir) links' acc w
    = for_each (find_css_files_body base_dir) links acc w.
Proof.
  revert links'. induction links as [|l links IH]; intros [|l' links'];
    cbn [map]; try discriminate; intros H acc w; [reflexivity|].
  injection H as Hl Hrest. cbn [for_each]. unfold bind.
  rewrite (find_body_attrs _ _ _ _ _ Hl).
  destruct (find_css_files_body base_dir acc l w) as [[e|acc'] w'];
    [reflexivity|]. now apply IH.
Qed.

(** The scan of the links gives the same result, the same output and the
    same exception on the document before and after the image loop. *)
Theorem link_scan_unaffected_by_image_loop (base_dir : string)
    (soup soup' : soup_t) :
  rewrite_img_srcs base_dir soup = inr soup' ->
  forall (dir : string) (w : world),
    find_css_files soup' dir w = find_css_files soup dir w.
Proof.
  intros Hsoup dir w. unfold find_css_files.
  apply find_loop_attrs. exact (rewrite_img_srcs_links _ _ _ Hsoup).
Qed.

End ImageProperties.

(** ** Further properties of the conversion *)

Section ConversionProperties.
Import PyStr PyStrFacts Bs4.

Variable os_path_abspath : string -> string.
Variable os_path_dirname : string -> string.
Variable BeautifulSoup : string -> soup_t.
Variable soup_str : soup_t -> string.
Variable weasyprint : render_call -> filesystem -> (exn + unit) * filesystem.

Local Notation convert :=
  (convert_html_to_pdf os_path_abspath os_path_dirname BeautifulSoup soup_str
     weasyprint).
Local Notation run_main :=
  (main os_path_abspath os_path_dirname BeautifulSoup soup_str weasyprint).
Local Notation write_pdf := (HTML_write_pdf weasyprint).
Local Notation base_of html_path :=
  (os_path_abspath (os_path_dirname html_path)).

Lemma write_pdf_fst (markup target : string) (sheets : list CSS) (w : world) :
  fst (write_pdf markup target sheets w)
  = fst (weasyprint {| call_markup := markup; call_target := target;
                       call_stylesheets := sheets |} (fs w)).
Proof.
  unfold HTML_write_pdf. now destruct (weasyprint _ (fs w)).
Qed.

Lemma app_one_neq {A} (l : list A) (x : A) : l <> (l ++ [x])%list.
Proof.
  intros H. apply (f_equal (@length A)) in H.
  rewrite length_app in H. cbn [length] in H. lia.
Qed.

(** With stylesheets included, a document whose links name no local
    stylesheet is rendered with exactly two stylesheets, the default
    block and the page-rule block, and nothing is printed. *)
Theorem no_local_stylesheet_gives_two_blocks
    (html_path output_pdf page_size margin : string) (add_page_numbers : bool)
    (w : world) (text : string) (soup' : soup_t) :
  read_text (fs w) html_path = inr text ->
  rewrite_img_srcs (base_of html_path) (BeautifulSoup text) = inr soup' ->
  Forall (fun link => link_wf link = true) (find_all soup' "link") ->
  resolved_refs (base_of html_path) (find_all soup' "link") = [] ->
  convert html_path output_pdf page_size margin true add_page_numbers w
  = write_pdf (soup_str soup') output_pdf
      [default_css; CSS_string (page_css page_size margin add_page_numbers)] w.
Proof.
  intros Hread Himg Hwf Hrefs.
  erewrite convert_with_css_wf by eassumption.
  rewrite Hrefs. cbn [filter loaded_sheets flat_map missing_warnings
                        load_warnings map app].
  now rewrite add_lines_nil.
Qed.

(** With [include_css = false] the conversion prints nothing, and [main]
    prints one line, the success line or the error line, whatever the
    links of the document are. *)
Theorem no_css_prints_one_line (args : args_t) (w : world) :
  no_css args = true ->
  stdout (snd (convert (html_file args) (output args) (size args)
                 (margin_arg args) false (negb (no_page_numbers args)) w))
  = stdout w
  /\ exists line,
       stdout (snd (run_main args w)) = (stdout w ++ [line])%list
       /\ (line = "Successfully converted " ++ html_file args ++ " to "
                    ++ output args
           \/ exists e, line = "Error: " ++ exn_str e).
Proof.
  intros Hno.
  assert (Hc : stdout (snd (convert (html_file args) (output args) (size args)
                              (margin_arg args) false
                              (negb (no_page_numbers args)) w)) = stdout w).
  { destruct (read_text (fs w) (html_file args)) as [e|text] eqn:Hread.
    { now erewrite convert_read_fails by eassumption. }
    destruct (rewrite_img_srcs (base_of (html_file args)) (BeautifulSoup text))
      as [e|soup'] eqn:Himg.
    { now erewrite convert_rewrite_fails by eassumption. }
    erewrite convert_no_css by eassumption. apply write_pdf_stdout. }
  split; [exact Hc|].
  unfold main, try_except, bind. rewrite Hno. cbn [negb].
  destruct (convert (html_file args) (output args) (size args)
              (margin_arg args) false (negb (no_page_numbers args)) w)
    as [[e|[]] w'] eqn:E; cbn [snd] in Hc.
  - exists ("Error: " ++ exn_str e). cbn [print snd stdout]. rewrite Hc.
    split; [reflexivity|]. right. now exists e.
  - eexists. cbn [print snd stdout]. rewrite Hc.
    split; [reflexivity|]. now left.
Qed.

(** The conversion succeeds exactly when it reaches the renderer and the
    renderer succeeds on the call it is given. *)
Theorem conversion_succeeds_iff_renderer_does
    (html_path output_pdf page_size margin : string)
    (include_css add_page_numbers : bool) (w : world) :
  let r := convert html_path output_pdf page_size margin include_css
             add_page_numbers w in
  fst r = inr tt
  <-> exists call,
        rendered (snd r) = (rendered w ++ [call])%list
        /\ fst (weasyprint call (fs w)) = inr tt.
Proof.
  cbv zeta.
  assert (Hno : forall (e : exn) (w' : world),
            rendered w' = rendered w ->
            fst (@inl exn unit e, w') = inr tt
            <-> exists call,
                  rendered (snd (@inl exn unit e, w'))
                  = (rendered w ++ [call])%list
                  /\ fst (weasyprint call (fs w)) = inr tt).
  { intros e w' Hw'. cbn [fst snd]. rewrite Hw'. split; [discriminate|].
    intros (call & Hc & _). now apply app_one_neq in Hc. }
  assert (Hyes : forall markup sheets lines,
            fst (write_pdf markup output_pdf sheets (add_lines w lines))
            = inr tt
            <-> exists call,
                  rendered (snd (write_pdf markup output_pdf sheets
                                   (add_lines w lines)))
                  = (rendered w ++ [call])%list
                  /\ fst (weasyprint call (fs w)) = inr tt).
  { intros markup sheets lines.
    rewrite write_pdf_fst, write_pdf_rendered, fs_add_lines.
    cbn [rendered add_lines]. split.
    - intros H. eexists. split; [reflexivity|exact H].
    - intros (call & Hc & H). apply app_inv_head in Hc.
      injection Hc as <-. exact H. }
  destruct (read_text (fs w) html_path) as [e|text] eqn:Hread.
  { erewrite convert_read_fails by eassumption. now apply Hno. }
  destruct (rewrite_img_srcs (base_of html_path) (BeautifulSoup text))
    as [e|soup'] eqn:Himg.
  { erewrite convert_rewrite_fails by eassumption. now apply Hno. }
  destruct include_css.
  - erewrite convert_with_css by eassumption.
    destruct (find_css_files_frame soup' (base_of html_path) w) as [lines Hw].
    destruct (find_css_files soup' (base_of html_path) w) as [[e|files] w1];
      cbn [snd] in Hw; subst w1.
    + now apply Hno.
    + rewrite add_lines_app. apply Hyes.
  - erewrite convert_no_css by eassumption.
    pose proof (Hyes (soup_str soup')
                  [CSS_string (page_css page_size margin add_page_numbers)]
                  []) as H.
    now rewrite add_lines_nil in H.
Qed.

(** An exception raised by the scan of the links ends the conversion:
    it is the exception of the conversion, the renderer is not called,
    the file system is as before, and [main] reports it on the last line
    of the output and returns. *)
Theorem scan_failure_aborts_conversion (args : args_t) (w w1 : world)
    (text : string) (soup' : soup_t) (e : exn) :
  no_css args = false ->
  read_text (fs w) (html_file args) = inr text ->
  rewrite_img_srcs (base_of (html_file args)) (BeautifulSoup text)
  = inr soup' ->
  find_css_files soup' (base_of (html_file args)) w = (inl e, w1) ->
  convert (html_file args) (output args) (size args) (margin_arg args)
    true (negb (no_page_numbers args)) w = (inl e, w1)
  /\ rendered w1 = rendered w
  /\ fs w1 = fs w
  /\ run_main args w = (inr tt, add_lines w1 ["Error: " ++ exn_str e]).
Proof.
  intros Hcss Hread Himg Hscan.
  assert (Hc : convert (html_file args) (output args) (size args)
                 (margin_arg args) true (negb (no_page_numbers args)) w
               = (inl e, w1)).
  { erewrite convert_with_css by eassumption. now rewrite Hscan. }
  destruct (find_css_files_frame soup' (base_of (html_file args)) w)
    as [lines Hw].
  rewrite Hscan in Hw. cbn [snd] in Hw.
  split; [exact Hc|]. split; [now rewrite Hw|]. split; [now rewrite Hw|].
  unfold main, try_except, bind. rewrite Hcss. cbn [negb]. rewrite Hc.
  reflexivity.
Qed.

End ConversionProperties.

(** ** Further concrete runs *)

Section MoreRuns.
Import PyStr Bs4.

Lemma find_css_files_returns_existing_paths_witness :
  find_css_files Demo.soup "/x" Demo.w0 = (inr ["/x/style.css"], Demo.w0)
  /\ Forall (fun p => path_exists (fs Demo.w0) p = true) ["/x/style.css"].
Proof.
  split; [reflexivity|].
  destruct (find_css_files_returns_existing_paths Demo.soup "/x" Demo.w0)
    as (lines & _ & _ & Hfiles).
  exact (Hfiles ["/x/style.css"] eq_refl).
Defined.


Lemma absolute_href_ignores_base_dir_witness :
  find_css_files_body "/x" [] Demo.link_absolute Demo.w0
  = (inr [], add_lines Demo.w0
               ["Warning: CSS file not found: /usr/share/print.css"])
  /\ find_css_files_body "/somewhere/else" [] Demo.link_absolute Demo.w0
     = find_css_files_body "/x" [] Demo.link_absolute Demo.w0.
Proof.
  pose proof (fun base =>
    absolute_href_ignores_base_dir base [] Demo.link_absolute Demo.w0
      "StyleSheet" "/usr/share/print.css" eq_refl eq_refl eq_refl eq_refl)
    as H.
  split; [exact (H "/x")|].
  rewrite (H "/somewhere/else"), (H "/x"). reflexivity.
Defined.

Lemma empty_rel_raises_index_error_witness :
  find_all Demo.soup_warn_then_empty_rel "link"
  = ([Demo.link_missing] ++ Demo.link_empty_rel :: [Demo.link_style])%list
  /\ find_css_files Demo.soup_warn_then_empty_rel "/x" Demo.w0
     = (inl (IndexError "list index out of range"),
        add_lines Demo.w0 ["Warning: CSS file not found: /x/missing.css"]).
Proof.
  split; [reflexivity|].
  exact (empty_rel_raises_index_error Demo.soup_warn_then_empty_rel "/x"
           Demo.w0 [Demo.link_missing] [Demo.link_style] Demo.link_empty_rel
           eq_refl ltac:(repeat constructor) eq_refl).
Defined.

Lemma image_loop_touches_only_img_src_witness :
  rewrite_img_srcs "/x" Demo.soup_no_local_css
  = inr Demo.soup_no_local_css_rewritten
  /\ map without_img_src Demo.soup_no_local_css_rewritten
     = [Tag "head" [] [Demo.link_alternate; Demo.link_remote];
        Tag "img" [("alt", AStr "logo")] []]
  /\ map without_img_src Demo.soup_no_local_css_rewritten
     = map without_img_src Demo.soup_no_local_css
  /\ map tag_attrs (find_all Demo.soup_no_local_css_rewritten "link")
     = map tag_attrs (find_all Demo.soup_no_local_css "link")
  /\ Forall2
       (fun old new =>
          map fst (tag_attrs new) = map fst (tag_attrs old)
          /\ forall key, key <> "src" -> get new key = get old key)
       (find_all Demo.soup_no_local_css "img")
       (find_all Demo.soup_no_local_css_rewritten "img").
Proof.
  split; [reflexivity|]. split; [reflexivity|].
  destruct (image_loop_touches_only_img_src "/x" Demo.soup_no_local_css
              Demo.soup_no_local_css_rewritten eq_refl)
    as (Hshape & Hother & Himg).
  split; [exact Hshape|].
  split; [apply Hother; discriminate|exact Himg].
Defined.

Lemma link_scan_unaffected_by_image_loop_witness :
  rewrite_img_srcs "/x" Demo.soup = inr Demo.soup_rewritten
  /\ find_css_files Demo.soup_rewritten "/x" Demo.w_no_css
     = find_css_files Demo.soup "/x" Demo.w_no_css.
Proof.
  split; [reflexivity|].
  exact (link_scan_unaffected_by_image_loop "/x" Demo.soup
           Demo.soup_rewritten eq_refl "/x" Demo.w_no_css).
Defined.

Lemma no_local_stylesheet_gives_two_blocks_witness :
  resolved_refs "/x" (find_all Demo.soup_no_local_css_rewritten "link") = []
  /\ (let r := convert_html_to_pdf Demo.abspath Demo.dirname
                 (fun _ => Demo.soup_no_local_css) Demo.str Demo.renderer
                 "/x/doc.html" "output.pdf" "A4" "1cm" true true Demo.w0 in
      stdout (snd r) = []
      /\ map call_stylesheets (rendered (snd r))
         = [[default_css; CSS_string (page_css "A4" "1cm" true)]]).
Proof.
  split; [reflexivity|]. cbv zeta.
  rewrite (no_local_stylesheet_gives_two_blocks Demo.abspath Demo.dirname
             (fun _ => Demo.soup_no_local_css) Demo.str Demo.renderer
             "/x/doc.html" "output.pdf" "A4" "1cm" true Demo.w0
             "<html>...</html>" Demo.soup_no_local_css_rewritten
             eq_refl eq_refl ltac:(repeat constructor) eq_refl).
  split; reflexivity.
Defined.

Lemma no_css_prints_one_line_witness :
  stdout (snd (Demo.run_main Demo.args_no_css Demo.w0))
  = ["Successfully converted /x/doc.html to out.pdf"]
  /\ exists line,
       stdout (snd (Demo.run_main Demo.args_no_css Demo.w0))
       = (stdout Demo.w0 ++ [line])%list.
Proof.
  split; [reflexivity|].
  destruct (no_css_prints_one_line Demo.abspath Demo.dirname Demo.parse
              Demo.str Demo.renderer Demo.args_no_css Demo.w0 eq_refl)
    as (_ & line & Hline & _).
  now exists line.
Defined.

Lemma conversion_succeeds_iff_renderer_does_witness :
  fst (Demo.convert "/x/doc.html" "output.pdf" "A4" "1cm" true true Demo.w0)
  = inr tt
  /\ fst (convert_html_to_pdf Demo.abspath Demo.dirname Demo.parse Demo.str
            Demo.failing_renderer "/x/doc.html" "output.pdf" "A4" "1cm"
            true true Demo.w0)
     <> inr tt.
Proof.
  split.
  - apply (proj2 (conversion_succeeds_iff_renderer_does Demo.abspath
                    Demo.dirname Demo.parse Demo.str Demo.renderer
                    "/x/doc.html" "output.pdf" "A4" "1cm" true true Demo.w0)).
    eexists. split; reflexivity.
  - intros H.
    apply (proj1 (conversion_succeeds_iff_renderer_does Demo.abspath
                    Demo.dirname Demo.parse Demo.str Demo.failing_renderer
                    "/x/doc.html" "output.pdf" "A4" "1cm" true true Demo.w0))
      in H.
    destruct H as (call & _ & Hcall). discriminate Hcall.
Defined.

Lemma scan_failure_aborts_conversion_witness :
  main Demo.abspath Demo.dirname (fun _ => Demo.soup_warn_then_empty_rel)
    Demo.str Demo.renderer
    {| html_file := "/x/doc.html"; output := "output.pdf"; size := "A4";
       margin_arg := "1cm"; no_css := false; no_page_numbers := false |}
    Demo.w0
  = (inr tt,
     add_lines Demo.w0
       ["Warning: CSS file not found: /x/missing.css";
        "Error: list index out of range"]).
Proof.
  exact (proj2 (proj2 (proj2
    (scan_failure_aborts_conversion Demo.abspath Demo.dirname
       (fun _ => Demo.soup_warn_then_empty_rel) Demo.str Demo.renderer
       {| html_file := "/x/doc.html"; output := "output.pdf"; size := "A4";
          margin_arg := "1cm"; no_css := false; no_page_numbers := false |}
       Demo.w0
       (add_lines Demo.w0 ["Warning: CSS file not found: /x/missing.css"])
       "<html>...</html>" Demo.soup_warn_then_empty_rel
       (IndexError "list index out of range")
       eq_refl eq_refl eq_refl eq_refl)))).
Defined.

End MoreRuns.
